(** * compute_sales.py: price catalogue derivation and sales aggregation

    A shallow embedding of [src/compute_sales.py] and the properties of its
    catalogue builder ([generate_price_catalogue]), its sales aggregator
    ([compute_total_sales]) and its driver ([main]).

    The program is dynamically typed and works on whatever [json.load]
    returns, so values are modelled as JSON documents and every Python
    operation the program applies to them is a partial function that either
    returns or raises.  Files and the console are an explicit world that the
    functions thread through a state-and-exception monad.

    Conventions of the model:
    - [float] is binary64 (Rocq's primitive floats), [int] is [Z];
    - a character of a [string] stands for one character of a Python [str];
    - a path names a regular file or nothing; opening for writing succeeds,
      and what [json.dump] writes is what [json.load] reads back;
    - the console is the list of [print] calls, each kept as a structured
      line rather than rendered text; the same holds for the report file;
    - the wall-clock time measured by [main] is an argument of [main]. *)

From Stdlib Require Import ZArith String List Floats.
From stdpp Require Import gmap strings list pretty.

Set Warnings "-inexact-float,-register-all".
Set Default Proof Using "Type".
Open Scope string_scope.
Open Scope list_scope.

(** ** Values *)

(** What [json.load] produces: [None], [bool], [int] (unbounded), [float]
    (binary64, including [NaN] and the infinities, which Python's parser
    accepts), [str], [list] and [dict] with string keys in insertion order. *)
Inductive json : Type :=
| JNull
| JBool (b : bool)
| JInt (z : Z)
| JFloat (f : float)
| JStr (s : string)
| JArr (items : list json)
| JObj (fields : list (string * json)).

(** The exceptions the program can let escape. *)
Inductive exn : Type :=
| KeyError
| TypeError
| AttributeError
| OverflowError
| MemoryError.

(** Result of running a piece of the program: a value, an uncaught exception,
    or [sys.exit(status)]. *)
Inductive outcome (A : Type) : Type :=
| Ok (a : A)
| Raise (e : exn)
| Exit (status : Z).
Arguments Ok {A} a.
Arguments Raise {A} e.
Arguments Exit {A} status.

#[export] Instance outcome_ret : MRet outcome := fun A a => Ok a.
#[export] Instance outcome_bind : MBind outcome := fun A B f m =>
  match m with
  | Ok a => f a
  | Raise e => Raise e
  | Exit s => Exit s
  end.

(** Status the operating system sees: 0 on normal completion, 1 after an
    uncaught exception, the argument of [sys.exit] otherwise. *)
Definition exit_status {A} (o : outcome A) : Z :=
  match o with
  | Ok _ => 0
  | Raise _ => 1
  | Exit s => s
  end.

(** ** Python dictionaries

    A [dict] keeps its keys in insertion order; assigning to a key that is
    already present replaces the value and leaves the key where it was. *)
Section Assoc.
Context {K V : Type} (eqb : K → K → bool).

Fixpoint assoc_get (k : K) (d : list (K * V)) : option V :=
  match d with
  | [] => None
  | (k', v) :: d' => if eqb k' k then Some v else assoc_get k d'
  end.

Fixpoint assoc_set (k : K) (v : V) (d : list (K * V)) : list (K * V) :=
  match d with
  | [] => [(k, v)]
  | (k', v') :: d' =>
      if eqb k' k then (k', v) :: d' else (k', v') :: assoc_set k v d'
  end.

Definition assoc_mem (k : K) (d : list (K * V)) : bool :=
  existsb (fun kv => eqb kv.1 k) d.
End Assoc.

(** Dictionaries with [str] keys: JSON objects and the totals mapping. *)
Definition dict_get {V} (k : string) (d : list (string * V)) : option V :=
  assoc_get String.eqb k d.
Definition dict_set {V} (k : string) (v : V) (d : list (string * V))
  : list (string * V) :=
  assoc_set String.eqb k v d.

(** ** Numbers *)

(** [float(n)] for an [int]: correctly rounded, [OverflowError] when the
    rounded value does not fit binary64. *)
Definition int_to_float (z : Z) : outcome float :=
  let f := SF2Prim (binary_normalize prec emax z 0 false) in
  if PrimFloat.is_infinity f then Raise OverflowError else Ok f.

(** [bool] is a subclass of [int]: [True] counts as 1 and [False] as 0. *)
Definition as_int (v : json) : option Z :=
  match v with
  | JBool b => Some (Z.b2z b)
  | JInt z => Some z
  | _ => None
  end.

(** [f == n] for a [float] and an [int] compares the exact values. *)
Definition float_int_eqb (f : float) (z : Z) : bool :=
  match Prim2SF f with
  | S754_zero _ => (z =? 0)%Z
  | S754_finite s m e =>
      let m' := if s then Z.neg m else Z.pos m in
      if (0 <=? e)%Z then (z =? m' * 2 ^ e)%Z else (m' =? z * 2 ^ (- e))%Z
  | _ => false
  end.

(** ** Dictionary keys

    Lists and dicts are unhashable.  Two hashable keys denote the same entry
    when they are the same object or compare equal with [==]: numbers by
    value across [bool], [int] and [float]; every [NaN] that [json.load]
    returns is the one object [json.decoder.NaN]. *)
Definition hashable (v : json) : bool :=
  match v with
  | JArr _ | JObj _ => false
  | _ => true
  end.

Definition key_eqb (a b : json) : bool :=
  match a, b with
  | JNull, JNull => true
  | JStr s, JStr t => String.eqb s t
  | JFloat f, JFloat g => PrimFloat.eqb f g || (is_nan f && is_nan g)
  | JFloat f, (JInt _ | JBool _) =>
      match as_int b with Some z => float_int_eqb f z | None => false end
  | (JInt _ | JBool _), JFloat g =>
      match as_int a with Some z => float_int_eqb g z | None => false end
  | (JInt _ | JBool _), (JInt _ | JBool _) =>
      match as_int a, as_int b with
      | Some y, Some z => (y =? z)%Z
      | _, _ => false
      end
  | _, _ => false
  end.

(** ** Python operations on values *)

(** [len(v)] *)
Definition py_len (v : json) : outcome nat :=
  match v with
  | JStr s => Ok (String.length s)
  | JArr items => Ok (length items)
  | JObj fields => Ok (length fields)
  | _ => Raise TypeError
  end.

(** Truth value, as tested by [not v]. *)
Definition py_truthy (v : json) : bool :=
  match v with
  | JNull => false
  | JBool b => b
  | JInt z => negb (z =? 0)%Z
  | JFloat f => negb (PrimFloat.eqb f 0%float)
  | JStr s => negb (String.eqb s "")
  | JArr items => match items with [] => false | _ :: _ => true end
  | JObj fields => match fields with [] => false | _ :: _ => true end
  end.

Fixpoint chars (s : string) : list json :=
  match s with
  | EmptyString => []
  | String c s' => JStr (String c EmptyString) :: chars s'
  end.

(** The sequence a [for] loop or a comprehension walks through: the elements
    of a list, the keys of a dict, the characters of a string. *)
Definition py_iter (v : json) : outcome (list json) :=
  match v with
  | JArr items => Ok items
  | JObj fields => Ok (map (fun kv => JStr kv.1) fields)
  | JStr s => Ok (chars s)
  | _ => Raise TypeError
  end.

(** [v[key]] with a string [key] *)
Definition py_getitem (v : json) (key : string) : outcome json :=
  match v with
  | JObj fields =>
      match dict_get key fields with
      | Some x => Ok x
      | None => Raise KeyError
      end
  | _ => Raise TypeError
  end.

(** [v.get(key, default)] *)
Definition py_get (v : json) (key : string) (dflt : json) : outcome json :=
  match v with
  | JObj fields => Ok (default dflt (dict_get key fields))
  | _ => Raise AttributeError
  end.

(** ** Arithmetic *)

Inductive number : Type :=
| NInt (z : Z)
| NFloat (f : float).

Definition as_number (v : json) : option number :=
  match v with
  | JBool b => Some (NInt (Z.b2z b))
  | JInt z => Some (NInt z)
  | JFloat f => Some (NFloat f)
  | _ => None
  end.

Definition to_float (n : number) : outcome float :=
  match n with
  | NInt z => int_to_float z
  | NFloat f => Ok f
  end.

Fixpoint str_repeat (s : string) (n : nat) : string :=
  match n with
  | O => ""
  | S n' => s +:+ str_repeat s n'
  end.

(** The count of a sequence repetition [seq * n], for a sequence of [len]
    items.  The count must fit the index type ([Py_ssize_t], 64 bits), else
    [OverflowError]; a count below 1 gives the empty sequence; a result
    longer than the index type allows is refused, with [OverflowError] for a
    [str] and [MemoryError] for a [list] ([too_long]).  A repetition this
    lets through is taken to fit in memory. *)
Definition repeat_count (len : nat) (n : Z) (too_long : exn) : outcome nat :=
  if ((n <? - 2 ^ 63) || (2 ^ 63 - 1 <? n))%Z then Raise OverflowError
  else if (2 ^ 63 - 1 <? Z.of_nat len * n)%Z then Raise too_long
  else Ok (Z.to_nat n).

(** [a * b]: exact on two [int]s, binary64 as soon as one operand is a
    [float] (the [int] operand is converted first), repetition for a [str] or
    a [list] and an [int], [TypeError] for every other pair. *)
Definition py_mul (a b : json) : outcome json :=
  match as_number a, as_number b with
  | Some (NInt y), Some (NInt z) => Ok (JInt (y * z))
  | Some x, Some y =>
      f ← to_float x; g ← to_float y; Ok (JFloat (f * g))
  | _, _ =>
      match a, as_int b, as_int a, b with
      | JStr s, Some n, _, _ | _, _, Some n, JStr s =>
          k ← repeat_count (String.length s) n OverflowError;
          Ok (JStr (str_repeat s k))
      | JArr l, Some n, _, _ | _, _, Some n, JArr l =>
          k ← repeat_count (length l) n MemoryError;
          Ok (JArr (mjoin (replicate k l)))
      | _, _, _, _ => Raise TypeError
      end
  end.

(** [total += x] for a [float] total. *)
Definition float_iadd (total : float) (x : json) : outcome float :=
  match as_number x with
  | Some n => f ← to_float n; Ok (total + f)%float
  | None => Raise TypeError
  end.

(** ** The title-to-price lookup

    A dict whose keys are whatever the catalogue has under ["title"]. *)
Definition table_set (k v : json) (t : list (json * json))
  : outcome (list (json * json)) :=
  if hashable k then Ok (assoc_set key_eqb k v t) else Raise TypeError.

(** [k in t] *)
Definition table_contains (k : json) (t : list (json * json)) : outcome bool :=
  if hashable k then Ok (assoc_mem key_eqb k t) else Raise TypeError.

(** [t[k]] *)
Definition table_getitem (k : json) (t : list (json * json)) : outcome json :=
  if hashable k then
    match assoc_get key_eqb k t with
    | Some v => Ok v
    | None => Raise KeyError
    end
  else Raise TypeError.

(** ** The world: files and console *)

(** A file holds a JSON document, text that is not JSON, or the report that
    [save_results] writes (which is not JSON either). *)
Inductive content : Type :=
| JsonDoc (v : json)
| NotJson
| Report (lines : list (string * float)) (execution_time : float).

(** One console line (or block) per [print] call of the program. *)
Inductive event : Type :=
| Loading (filename : string)
| Loaded (filename : string) (records : nat)
| LoadError (filename : string)
| ProductListError
| Generated (catalogue_file : string) (products : nat)
| Warning (product_name : json)
| ResultText (lines : list (string * float)) (execution_time : float)
| Usage
| CatalogueError
| SalesFileError (sales_file : string).

Record world : Type := World {
  files : gmap string content;
  stdout : list event
}.

Definition M (A : Type) : Type := world → outcome A * world.

#[export] Instance M_ret : MRet M := fun A a w => (Ok a, w).
#[export] Instance M_bind : MBind M := fun A B f m w =>
  match m w with
  | (Ok a, w') => f a w'
  | (Raise e, w') => (Raise e, w')
  | (Exit s, w') => (Exit s, w')
  end.

(** A computation that touches neither files nor console. *)
Definition lift {A} (o : outcome A) : M A := fun w => (o, w).

Definition print (e : event) : M unit :=
  fun w => (Ok (), World (files w) (stdout w ++ [e])).

(** [sys.exit(status)] *)
Definition sys_exit {A} (status : Z) : M A := fun w => (Exit status, w).

(** [os.path.exists(path)] *)
Definition path_exists (path : string) : M bool :=
  fun w => (Ok (bool_decide (is_Some (files w !! path))), w).

Definition read_file (path : string) : M (option content) :=
  fun w => (Ok (files w !! path), w).

Definition write_file (path : string) (c : content) : M unit :=
  fun w => (Ok (), World (<[path := c]> (files w)) (stdout w)).

(** A [for] loop whose body updates the loop-carried variables [s]. *)
Fixpoint for_each {A S} (body : S → A → M S) (l : list A) (s : S) : M S :=
  match l with
  | [] => mret s
  | x :: l' => s' ← body s x; for_each body l' s'
  end.

(** ** The program *)

(** [load_json_file]: the two exceptions it catches are a missing file and text
    that is not JSON; [len(data)] sits inside the [try] but its [TypeError] is
    not among them. *)
Definition load_json_file (filename : string) : M json :=
  print (Loading filename);;
  c ← read_file filename;
  match c with
  | Some (JsonDoc data) =>
      n ← lift (py_len data);
      print (Loaded filename n);;
      mret data
  | Some NotJson | Some (Report _ _) | None =>
      print (LoadError filename);;
      mret (JArr [])
  end.

(** [{"title": item["title"], "price": item["price"]}] *)
Definition catalogue_entry (item : json) : outcome json :=
  title ← py_getitem item "title";
  price ← py_getitem item "price";
  Ok (JObj [("title", title); ("price", price)]).

Definition generate_price_catalogue
    (product_list_file : string) (catalogue_file : string) : M json :=
  cached ← path_exists catalogue_file;
  if cached : bool then load_json_file catalogue_file
  else
    product_list ← load_json_file product_list_file;
    if negb (py_truthy product_list) then
      print ProductListError;;
      mret (JArr [])
    else
      items ← lift (py_iter product_list);
      catalogue_data ← lift (mapM catalogue_entry items);
      write_file catalogue_file (JsonDoc (JArr catalogue_data));;
      print (Generated catalogue_file (length catalogue_data));;
      mret (JArr catalogue_data).

(** The dict comprehension [{product["title"]: product["price"] for ...}]. *)
Fixpoint price_table (products : list json) (t : list (json * json))
  : outcome (list (json * json)) :=
  match products with
  | [] => Ok t
  | product :: rest =>
      title ← py_getitem product "title";
      price ← py_getitem product "price";
      t' ← table_set title price t;
      price_table rest t'
  end.

(** Body of the inner loop: one sale record. *)
Definition add_sale (product_prices : list (json * json))
    (total_sales : float) (sale : json) : M float :=
  product_name ← lift (py_get sale "Product" JNull);
  quantity ← lift (py_get sale "Quantity" (JInt 0));
  known ← lift (table_contains product_name product_prices);
  if known : bool then
    price ← lift (table_getitem product_name product_prices);
    amount ← lift (py_mul price quantity);
    lift (float_iadd total_sales amount)
  else
    print (Warning product_name);;
    mret total_sales.

(** [f"Sales File {idx}"] *)
Definition sales_file_label (idx : nat) : string :=
  "Sales File " +:+ pretty idx.

(** Body of the outer loop; the loop carries the totals mapping, the running
    combined total and the index [enumerate] hands out. *)
Definition add_file (product_prices : list (json * json))
    (st : list (string * float) * float * nat) (sales_data : json)
  : M (list (string * float) * float * nat) :=
  let '(total_sales_per_file, total_combined_sales, idx) := st in
  sales ← lift (py_iter sales_data);
  total_sales ← for_each (add_sale product_prices) sales 0%float;
  mret (dict_set (sales_file_label idx) total_sales total_sales_per_file,
        (total_combined_sales + total_sales)%float,
        S idx).

Definition compute_total_sales
    (product_catalogue : json) (sales_data_list : list json)
  : M (list (string * float)) :=
  products ← lift (py_iter product_catalogue);
  product_prices ← lift (price_table products []);
  '(total_sales_per_file, total_combined_sales, _) ←
    for_each (add_file product_prices) sales_data_list ([], 0%float, 1);
  mret (dict_set "Total Combined Sales" total_combined_sales
          total_sales_per_file).

Definition save_results (total_sales_data : list (string * float))
    (execution_time : float) (output_file : string) : M unit :=
  print (ResultText total_sales_data execution_time);;
  write_file output_file (Report total_sales_data execution_time).

(** The check that follows the loading of all sales files. *)
Fixpoint check_sales (sales_files : list string) (sales_data_list : list json)
  : M unit :=
  match sales_files, sales_data_list with
  | sales_file :: files', sales_data :: data' =>
      if negb (py_truthy sales_data) then
        print (SalesFileError sales_file);;
        sys_exit 1
      else check_sales files' data'
  | _, _ => mret ()
  end.

(** Default values of the [catalogue_file] and [output_file] parameters. *)
Definition default_catalogue_file : string := "priceCatalogue.json".
Definition default_output_file : string := "SalesResults.txt".

(** [main], given [sys.argv] and the wall-clock time the run will have taken
    when the totals are ready. *)
Definition main (argv : list string) (execution_time : float) : M unit :=
  if (length argv <? 3)%nat then
    print Usage;;
    sys_exit 1
  else
    let product_list_file := nth 1 argv "" in
    let sales_files := drop 2 argv in
    product_catalogue ←
      generate_price_catalogue product_list_file default_catalogue_file;
    if negb (py_truthy product_catalogue) then
      print CatalogueError;;
      sys_exit 1
    else
      sales_data_list ← mapM load_json_file sales_files;
      check_sales sales_files sales_data_list;;
      total_sales_data ← compute_total_sales product_catalogue sales_data_list;
      save_results total_sales_data execution_time default_output_file.

(** ** Vocabulary of the properties *)

(** *** The totals mapping *)

(** The labels of the first [n] sales files, in order. *)
Definition sales_file_labels (n : nat) : list string :=
  sales_file_label <$> seq 1 n.

(** The per-file totals of a totals mapping, in the mapping's order. *)
Definition per_file_totals (r : list (string * float)) : list float :=
  (List.filter (λ kv, String.prefix "Sales File " kv.1) r).*2.

(** What the outer loop of [compute_total_sales] has built after [n] files
    whose totals were [totals]. *)
Definition totals_so_far (totals : list float)
  : list (string * float) * float * nat :=
  (zip (sales_file_labels (length totals)) totals,
   fold_left PrimFloat.add totals 0%float,
   S (length totals)).

(** What [m] returns or raises does not depend on the world it starts in. *)
Definition world_blind {A} (m : M A) : Prop :=
  ∀ w w', (m w).1 = (m w').1.

(** The value [add_sale] looks up in the catalogue for a record. *)
Definition product_name_of (fields : list (string * json)) : json :=
  default JNull (dict_get "Product" fields).
Definition quantity_of (fields : list (string * json)) : json :=
  default (JInt 0) (dict_get "Quantity" fields).

(** *** Product lists and catalogues *)

(** A well-formed product: an object that has ["title"] and ["price"]. *)
Definition has_title_and_price (item : json) : bool :=
  match item with
  | JObj fields =>
      match dict_get "title" fields, dict_get "price" fields with
      | Some _, Some _ => true
      | _, _ => false
      end
  | _ => false
  end.

(** A well-formed product list file: it holds a non-empty array of
    well-formed products. *)
Definition well_formed_products (c : option content) : bool :=
  match c with
  | Some (JsonDoc (JArr (item :: items))) =>
      forallb has_title_and_price (item :: items)
  | _ => false
  end.

(** The entry derived from [item] stands for it: same title, same price,
    nothing else. *)
Definition projects (item entry : json) : Prop :=
  ∃ fields title price,
    item = JObj fields ∧
    dict_get "title" fields = Some title ∧
    dict_get "price" fields = Some price ∧
    entry = JObj [("title", title); ("price", price)].

(** The titles of a list of products or catalogue entries, in order. *)
Definition title_of (item : json) : option json :=
  match item with
  | JObj fields => dict_get "title" fields
  | _ => None
  end.

Definition titles_of (items : list json) : list json := omap title_of items.

(** *** Files and console lines *)

(** Console lines printed while files are loaded and the catalogue is
    derived. *)
Definition progress (e : event) : bool :=
  match e with
  | Loading _ | Loaded _ _ | LoadError _ | ProductListError
  | Generated _ _ => true
  | _ => false
  end.

(** A file the program cannot work from: missing, not JSON, or an empty
    document. *)
Definition unusable (c : option content) : bool :=
  match c with
  | Some (JsonDoc (JArr [])) | Some (JsonDoc (JObj []))
  | Some (JsonDoc (JStr "")) => true
  | Some (JsonDoc _) => false
  | Some NotJson | Some (Report _ _) | None => true
  end.

(** A file that loads to something non-empty. *)
Definition usable (c : option content) : bool :=
  match c with
  | Some (JsonDoc (JArr (_ :: _))) | Some (JsonDoc (JObj (_ :: _)))
  | Some (JsonDoc (JStr (String _ _))) => true
  | _ => false
  end.

(** Console lines that name a fatal condition. *)
Definition diagnostic (e : event) : bool :=
  match e with
  | Usage | CatalogueError | SalesFileError _ => true
  | _ => false
  end.

(** No catalogue can be obtained: the cache is there but unusable, or there is
    no cache and the product list is unusable. *)
Definition catalogue_unusable (w : world) (product_list_file : string) : bool :=
  match files w !! default_catalogue_file with
  | Some c => unusable (Some c)
  | None => unusable (files w !! product_list_file)
  end.

(** Every sales file loads, and one of them is missing, invalid or empty. *)
Definition sales_unusable (fs : gmap string content) (sales_files : list string)
  : bool :=
  forallb (λ f, usable (fs !! f) || unusable (fs !! f)) sales_files
  && existsb (λ f, unusable (fs !! f)) sales_files.

(** The fatal conditions of a run: too few arguments; no catalogue; or a
    catalogue, and a bad sales file in the world [w1] the catalogue step
    leaves behind. *)
Definition fatal (argv : list string) (w : world) : Prop :=
  (length argv < 3)%nat ∨
  ((3 ≤ length argv)%nat ∧ catalogue_unusable w (nth 1 argv "") = true) ∨
  ((3 ≤ length argv)%nat ∧
   ∃ cat w1,
     generate_price_catalogue (nth 1 argv "") default_catalogue_file w
       = (Ok cat, w1) ∧
     py_truthy cat = true ∧
     sales_unusable (files w1) (drop 2 argv) = true).

(** *** Inputs of the aggregator *)

(** A catalogue entry the lookup accepts: an object with a hashable ["title"]
    and a ["price"]. *)
Definition catalogue_entry_ok (entry : json) : bool :=
  match entry with
  | JObj fields =>
      match dict_get "title" fields, dict_get "price" fields with
      | Some title, Some _ => hashable title
      | _, _ => false
      end
  | _ => false
  end.

(** A well-formed catalogue: an array of entries the lookup accepts. *)
Definition well_formed_catalogue (product_catalogue : json) : bool :=
  match product_catalogue with
  | JArr entries => forallb catalogue_entry_ok entries
  | _ => false
  end.

(** [price * quantity] is a number that fits a [float]. *)
Definition amount_ok (price quantity : json) : bool :=
  match py_mul price quantity ≫= float_iadd 0%float with
  | Ok _ => true
  | _ => false
  end.

(** A sale record the aggregator accepts: an object whose product value is
    hashable and, when the catalogue knows it, whose amount is a number. *)
Definition sale_ok (prices : list (json * json)) (sale : json) : bool :=
  match sale with
  | JObj fields =>
      hashable (product_name_of fields) &&
      match assoc_get key_eqb (product_name_of fields) prices with
      | Some price => amount_ok price (quantity_of fields)
      | None => true
      end
  | _ => false
  end.

(** A sales collection the aggregator accepts: an array of such records. *)
Definition sales_ok (prices : list (json * json)) (sales_data : json) : bool :=
  match sales_data with
  | JArr sales => forallb (sale_ok prices) sales
  | _ => false
  end.

(** Inputs [compute_total_sales] accepts: a well-formed catalogue and sales
    collections that are arrays of acceptable records. *)
Definition acceptable_input (product_catalogue : json)
    (sales_data_list : list json) : bool :=
  match product_catalogue with
  | JArr entries =>
      forallb catalogue_entry_ok entries &&
      match price_table entries [] with
      | Ok prices => forallb (sales_ok prices) sales_data_list
      | _ => false
      end
  | _ => false
  end.

(** The keys of a lookup are pairwise different as dictionary keys. *)
Fixpoint keys_distinct (t : list (json * json)) : Prop :=
  match t with
  | [] => True
  | (k, _) :: t' => (∀ k', k' ∈ t'.*1 → key_eqb k k' = false) ∧ keys_distinct t'
  end.

(** [m] returns [a] after printing [evs], whatever the world. *)
Definition returns {A} (m : M A) (a : A) (evs : list event) : Prop :=
  ∀ w, m w = (Ok a, World (files w) (stdout w ++ evs)).

(** *** Example data *)

(** The product list, catalogue and sales of the specification's scenarios. *)
Definition widget_products : json :=
  JArr [JObj [("id", JInt 1); ("title", JStr "Widget"); ("price", JFloat 9.99)]].

Definition widget_catalogue : json :=
  JArr [JObj [("title", JStr "Widget"); ("price", JFloat 9.99)]].

Definition widget_sale : list (string * json) :=
  [("Product", JStr "Widget"); ("Quantity", JInt 3)].

Definition gadget_sale : list (string * json) :=
  [("Product", JStr "Gadget"); ("Quantity", JInt 5)].

Definition first_sales : json := JArr [JObj widget_sale].
Definition second_sales : json := JArr [JObj widget_sale; JObj gadget_sale].

(** A product list, itself shaped like a catalogue, with one title twice. *)
Definition duplicate_entries : list json :=
  [JObj [("title", JStr "Widget"); ("price", JInt 1)];
   JObj [("title", JStr "Widget"); ("price", JInt 2)]].
Definition duplicate_products : json := JArr duplicate_entries.

(** Worlds: no file at all; a product list and a sales file but no cache; a
    cache only; the duplicate product list; a cache holding a number. *)
Definition blank_world : world := World ∅ [].

Definition cold_world : world :=
  World (<["products.json" := JsonDoc widget_products]>
           (<["sales.json" := JsonDoc first_sales]> ∅)) [].

Definition warm_world : world :=
  World (<[default_catalogue_file := JsonDoc widget_catalogue]> ∅) [].

Definition duplicate_world : world :=
  World (<["products.json" := JsonDoc duplicate_products]> ∅) [].

Definition scalar_cache_world : world :=
  World (<[default_catalogue_file := JsonDoc (JInt 42)]> ∅) [].

(** The totals of the two-file scenario. *)
Definition widget_totals : list (string * float) :=
  [("Sales File 1", 29.97%float); ("Sales File 2", 29.97%float);
   ("Total Combined Sales", 59.94%float)].

(** *** Boundary cases of the claims *)

(** A JSON document that has a length: an array, an object or a string. *)
Definition has_len (v : json) : bool :=
  match v with
  | JStr _ | JArr _ | JObj _ => true
  | _ => false
  end.

(** The length [load_json_file] reports for a document that has one. *)
Definition doc_len (v : json) : nat :=
  match py_len v with
  | Ok n => n
  | _ => 0
  end.

(** What a call does when a file [cached] exists at the cache path
    [catalogue_file], in the world [w]. *)
Definition warm_result (catalogue_file : string) (cached : content) (w : world)
  : outcome json * world :=
  match cached with
  | JsonDoc data =>
      if has_len data then
        (Ok data,
         World (files w)
               (stdout w ++ [Loading catalogue_file;
                             Loaded catalogue_file (doc_len data)]))
      else
        (Raise TypeError,
         World (files w) (stdout w ++ [Loading catalogue_file]))
  | NotJson | Report _ _ =>
      (Ok (JArr []),
       World (files w)
             (stdout w ++ [Loading catalogue_file; LoadError catalogue_file]))
  end.

(** A record whose product value is a list; a record without "Product"; a
    catalogue whose only title is null. *)
Definition list_product_sale : list (string * json) :=
  [("Product", JArr [JStr "Widget"]); ("Quantity", JInt 1)].

Definition quantity_only_sale : list (string * json) :=
  [("Quantity", JInt 3)].

Definition null_title_catalogue : json :=
  JArr [JObj [("title", JNull); ("price", JInt 2)]].

(** A product list with three products, one title twice, and no cache. *)
Definition mixed_items : list json :=
  [JObj [("title", JStr "Widget"); ("price", JInt 1); ("id", JInt 7)];
   JObj [("title", JStr "Gadget"); ("price", JInt 5)];
   JObj [("title", JStr "Widget"); ("price", JInt 2)]].

Definition mixed_world : world :=
  World (<["products.json" := JsonDoc (JArr mixed_items)]> ∅) [].

(** A cache that is not JSON beside a good product list. *)
Definition broken_cache_world : world :=
  World (<[default_catalogue_file := NotJson]>
           (<["products.json" := JsonDoc widget_products]> ∅)) [].

(** *** Vocabulary of the further properties *)

(** The inner loop of [compute_total_sales] on one sales collection: the
    total of that file. *)
Definition file_total (product_prices : list (json * json)) (sales_data : json)
  : M float :=
  sales ← lift (py_iter sales_data);
  for_each (add_sale product_prices) sales 0%float.

Definition is_warning (e : event) : bool :=
  match e with
  | Warning _ => true
  | _ => false
  end.

Definition is_result (e : event) : bool :=
  match e with
  | ResultText _ _ => true
  | _ => false
  end.

(** [m] touches no file and prints only lines that satisfy [P], however it
    ends. *)
Definition prints_only {A} (P : event → bool) (m : M A) : Prop :=
  ∀ w, ∃ o evs,
    m w = (o, World (files w) (stdout w ++ evs)) ∧ forallb P evs = true.

(** Console lines other than the results. *)
Definition not_result (e : event) : bool := negb (is_result e).



(** A JSON document [len] rejects: a bare number, boolean or null. *)
Definition has_no_len (v : json) : bool :=
  match v with
  | JNull | JBool _ | JInt _ | JFloat _ => true
  | _ => false
  end.

(** Further example data: a cache that is not JSON beside a good product
    list; a product list whose second product has no price. *)
Definition corrupt_cache_world : world :=
  World (<[default_catalogue_file := NotJson]>
           (<["products.json" := JsonDoc widget_products]>
              (<["sales.json" := JsonDoc first_sales]> ∅))) [].

(** The world a cold run of the catalogue step leaves from [cold_world]. *)
Definition derived_world : world :=
  World (<[default_catalogue_file := JsonDoc widget_catalogue]>
           (files cold_world))
        [Loading "products.json"; Loaded "products.json" 1;
         Generated default_catalogue_file 1].

Definition malformed_items : list json :=
  [JObj [("title", JStr "Widget"); ("price", JFloat 9.99)];
   JObj [("title", JStr "Gadget")]].

Definition malformed_world : world :=
  World (<["products.json" := JsonDoc (JArr malformed_items)]> ∅) [].

(** ** Reasoning about runs *)

(** Runs a straight-line piece of the program to its end. *)
Ltac finish_run :=
  cbn; unfold print, mbind, M_bind; cbn; rewrite <- ?app_assoc; reflexivity.

Lemma bind_run {A B} (m : M A) (f : A → M B) (w : world) :
  (m ≫= f) w =
  match m w with
  | (Ok a, w') => f a w'
  | (Raise e, w') => (Raise e, w')
  | (Exit s, w') => (Exit s, w')
  end.
Proof. reflexivity. Qed.

Lemma bind_Ok_inv {A B} (m : M A) (f : A → M B) w b w' :
  (m ≫= f) w = (Ok b, w') →
  ∃ a w1, m w = (Ok a, w1) ∧ f a w1 = (Ok b, w').
Proof.
  rewrite bind_run. destruct (m w) as [[a|e|s] w1]; intros H; try discriminate.
  by exists a, w1.
Qed.

Lemma lift_Ok_inv {A} (o : outcome A) w a w' :
  lift o w = (Ok a, w') → o = Ok a ∧ w' = w.
Proof. unfold lift. intros [= -> ->]. done. Qed.

Lemma ret_Ok_inv {A} (x : A) w a w' :
  (mret x : M A) w = (Ok a, w') → a = x ∧ w' = w.
Proof. intros [= -> ->]. done. Qed.

Lemma for_each_app {A S} (body : S → A → M S) (l1 l2 : list A) (s : S) w :
  for_each body (l1 ++ l2) s w = (for_each body l1 s ≫= for_each body l2) w.
Proof.
  revert s w. induction l1 as [|x l1 IH]; intros s w; simpl.
  - reflexivity.
  - rewrite !bind_run. destruct (body s x w) as [[s'|e|st] w1]; try reflexivity.
    rewrite IH. reflexivity.
Qed.

(** ** Dictionaries: assigning to a new key appends *)

Lemma dict_set_fresh {V} (k : string) (v : V) (d : list (string * V)) :
  k ∉ (d.*1 : list string) → dict_set k v d = d ++ [(k, v)].
Proof.
  induction d as [|[k' v'] d IH]; simpl; intros Hk.
  - reflexivity.
  - apply not_elem_of_cons in Hk as [Hne Hk].
    unfold dict_set in *. simpl.
    destruct (String.eqb_spec k' k) as [->|_]; [done|].
    by rewrite IH.
Qed.

Lemma dict_get_app_fresh {V} (k : string) (v : V) (d : list (string * V)) :
  k ∉ (d.*1 : list string) → dict_get k (d ++ [(k, v)]) = Some v.
Proof.
  induction d as [|[k' v'] d IH]; simpl; intros Hk; unfold dict_get in *; simpl.
  - by rewrite String.eqb_refl.
  - apply not_elem_of_cons in Hk as [Hne Hk].
    destruct (String.eqb_spec k' k) as [->|_]; [done|]. by apply IH.
Qed.

(** ** Labels of the totals mapping *)

Lemma sales_file_label_inj : Inj (=) (=) sales_file_label.
Proof.
  intros i j H. unfold sales_file_label in H.
  apply (inj (String.append "Sales File ")) in H.
  by apply (inj pretty) in H.
Qed.

Lemma sales_file_label_prefix idx :
  String.prefix "Sales File " (sales_file_label idx) = true.
Proof. unfold sales_file_label. simpl. by destruct (pretty idx). Qed.

Lemma sales_file_label_not_combined idx :
  sales_file_label idx ≠ "Total Combined Sales".
Proof. unfold sales_file_label. generalize (pretty idx). intros s. discriminate. Qed.

Lemma sales_file_labels_S n :
  sales_file_labels (S n) = sales_file_labels n ++ [sales_file_label (S n)].
Proof. unfold sales_file_labels. by rewrite seq_S, fmap_app. Qed.

Lemma sales_file_label_fresh n :
  sales_file_label (S n) ∉ sales_file_labels n.
Proof.
  unfold sales_file_labels. intros (i & Heq & Hi)%list_elem_of_fmap.
  apply sales_file_label_inj in Heq as <-.
  apply elem_of_seq in Hi. lia.
Qed.

Lemma combined_label_fresh n :
  "Total Combined Sales" ∉ sales_file_labels n.
Proof.
  unfold sales_file_labels. intros (i & Heq & _)%list_elem_of_fmap.
  by eapply sales_file_label_not_combined.
Qed.

(** ** Shape of the totals mapping *)

Lemma add_file_totals prices totals sales_data st w w' :
  add_file prices (totals_so_far totals) sales_data w = (Ok st, w') →
  ∃ total, st = totals_so_far (totals ++ [total]).
Proof.
  unfold add_file, totals_so_far. intros H.
  apply bind_Ok_inv in H as (sales & w1 & _ & H).
  apply bind_Ok_inv in H as (total & w2 & _ & H).
  apply ret_Ok_inv in H as [-> _]. exists total.
  rewrite length_app, Nat.add_1_r, sales_file_labels_S, fold_left_app. simpl.
  rewrite zip_with_app by (unfold sales_file_labels; by rewrite length_fmap, length_seq).
  rewrite dict_set_fresh; [done|].
  rewrite fst_zip; [apply sales_file_label_fresh|].
  unfold sales_file_labels. by rewrite length_fmap, length_seq.
Qed.

Lemma add_files_totals prices sales_data_list totals st w w' :
  for_each (add_file prices) sales_data_list (totals_so_far totals) w
    = (Ok st, w') →
  ∃ more, length more = length sales_data_list ∧
          st = totals_so_far (totals ++ more).
Proof.
  revert totals w. induction sales_data_list as [|x l IH]; intros totals w; simpl.
  - intros [-> _]%ret_Ok_inv. exists []. by rewrite app_nil_r.
  - intros (st1 & w1 & Hx & Hl)%bind_Ok_inv.
    apply add_file_totals in Hx as [total ->].
    apply IH in Hl as (more & Hlen & ->).
    exists (total :: more). split; [simpl; by rewrite Hlen|].
    by rewrite <- app_assoc.
Qed.

(** Whenever [compute_total_sales] returns, the mapping is the per-file
    labels in order, each with its file's total, followed by the combined
    entry, whose value is the left-to-right sum of those totals from [0.0]. *)
Lemma compute_total_sales_shape product_catalogue sales_data_list w r w' :
  compute_total_sales product_catalogue sales_data_list w = (Ok r, w') →
  ∃ totals,
    length totals = length sales_data_list ∧
    r = zip (sales_file_labels (length sales_data_list)) totals
          ++ [("Total Combined Sales", fold_left PrimFloat.add totals 0%float)].
Proof.
  unfold compute_total_sales. intros H.
  apply bind_Ok_inv in H as (products & w1 & _ & H).
  apply bind_Ok_inv in H as (prices & w2 & _ & H).
  apply bind_Ok_inv in H as ([[per_file combined] idx] & w3 & Hloop & H).
  apply ret_Ok_inv in H as [-> _].
  apply (add_files_totals _ _ []) in Hloop as (totals & Hlen & Hst).
  simpl in Hst. injection Hst as -> -> _.
  exists totals. split; [done|]. rewrite Hlen.
  apply dict_set_fresh. rewrite fst_zip; [apply combined_label_fresh|].
  unfold sales_file_labels. rewrite length_fmap, length_seq. lia.
Qed.

(** ** Computations that only print *)

Lemma world_blind_ret {A} (a : A) : world_blind (mret a : M A).
Proof. by intros w w'. Qed.

Lemma world_blind_lift {A} (o : outcome A) : world_blind (lift o).
Proof. by intros w w'. Qed.

Lemma world_blind_print e : world_blind (print e).
Proof. by intros w w'. Qed.

Lemma bind_outcome_eq {A B} (m1 m2 : M A) (f1 f2 : A → M B) w1 w2 :
  (m1 w1).1 = (m2 w2).1 →
  (∀ a u u', (f1 a u).1 = (f2 a u').1) →
  ((m1 ≫= f1) w1).1 = ((m2 ≫= f2) w2).1.
Proof.
  intros Hm Hf. rewrite !bind_run.
  destruct (m1 w1) as [[a1|e1|s1] u1], (m2 w2) as [[a2|e2|s2] u2];
    simpl in *; try congruence.
  injection Hm as ->. apply Hf.
Qed.

Lemma world_blind_bind {A B} (m : M A) (f : A → M B) :
  world_blind m → (∀ a, world_blind (f a)) → world_blind (m ≫= f).
Proof. intros Hm Hf w w'. apply bind_outcome_eq; [apply Hm|]. intros a. apply Hf. Qed.

Lemma world_blind_for_each {A S} (body : S → A → M S) l s :
  (∀ s x, world_blind (body s x)) → world_blind (for_each body l s).
Proof.
  intros Hb. revert s. induction l as [|x l IH]; intros s; simpl.
  - apply world_blind_ret.
  - apply world_blind_bind; [apply Hb|]. intros s'. apply IH.
Qed.

Lemma world_blind_add_sale prices total sale :
  world_blind (add_sale prices total sale).
Proof.
  unfold add_sale.
  apply world_blind_bind; [apply world_blind_lift|]; intros product_name.
  apply world_blind_bind; [apply world_blind_lift|]; intros quantity.
  apply world_blind_bind; [apply world_blind_lift|]; intros [|].
  - apply world_blind_bind; [apply world_blind_lift|]; intros price.
    apply world_blind_bind; [apply world_blind_lift|]; intros amount.
    apply world_blind_lift.
  - apply world_blind_bind; [apply world_blind_print|]. intros _.
    apply world_blind_ret.
Qed.

Lemma world_blind_add_file prices st sales_data :
  world_blind (add_file prices st sales_data).
Proof.
  destruct st as [[per_file combined] idx]. unfold add_file.
  apply world_blind_bind; [apply world_blind_lift|]. intros sales.
  apply world_blind_bind.
  - apply world_blind_for_each. intros. apply world_blind_add_sale.
  - intros total. apply world_blind_ret.
Qed.

(** ** Keys of the title-to-price lookup *)

Lemma assoc_set_keys {K V} (eqb : K → K → bool) (k k' : K) (v : V) d :
  k' ∈ (assoc_set eqb k v d).*1 → k' ∈ d.*1 ∨ k' = k.
Proof.
  induction d as [|[k0 v0] d IH]; simpl.
  - intros ->%list_elem_of_singleton. by right.
  - destruct (eqb k0 k); simpl; [by left|].
    intros [->|H]%elem_of_cons; [left; by left|].
    destruct (IH H) as [?|?]; [left; by right|by right].
Qed.

Lemma assoc_mem_false {K V} (eqb : K → K → bool) (k : K) (d : list (K * V)) :
  (∀ k', k' ∈ d.*1 → eqb k' k = false) → assoc_mem eqb k d = false.
Proof.
  induction d as [|[k0 v0] d IH]; simpl; intros H; [done|].
  rewrite (H k0) by by left. simpl. apply IH. intros k' Hk'. apply H. by right.
Qed.

(** Every key of the lookup is the title of some catalogue entry. *)
Lemma price_table_keys products t0 t k :
  price_table products t0 = Ok t →
  k ∈ t.*1 →
  k ∈ t0.*1 ∨ ∃ product, product ∈ products ∧ py_getitem product "title" = Ok k.
Proof.
  revert t0. induction products as [|p products IH]; intros t0; simpl.
  - intros [= ->]. by left.
  - destruct (py_getitem p "title") as [title| |] eqn:Ht; try done. simpl.
    destruct (py_getitem p "price") as [price| |] eqn:Hp; try done. simpl.
    unfold table_set. destruct (hashable title); try done. simpl.
    intros Hrest Hk. destruct (IH _ Hrest Hk) as [Hin|(q & Hq & Hqt)].
    + apply assoc_set_keys in Hin as [?| ->]; [by left|].
      right. exists p. split; [by left|done].
    + right. exists q. split; [by right|done].
Qed.

(** Dropping from a loop an element whose body changes nothing but the world
    does not change what the loop returns or raises. *)
Lemma for_each_skip {A S} (body : S → A → M S) (pre post : list A) x s
    (skip : world → world) w :
  (∀ s u, body s x u = (Ok s, skip u)) →
  (∀ s y, world_blind (body s y)) →
  (for_each body (pre ++ x :: post) s w).1 = (for_each body (pre ++ post) s w).1.
Proof.
  intros Hx Hb. rewrite !for_each_app.
  apply bind_outcome_eq; [done|]. intros a u u'. simpl.
  rewrite bind_run, Hx. by apply world_blind_for_each.
Qed.

Lemma assoc_get_mem {K V} (eqb : K → K → bool) (k : K) (d : list (K * V)) :
  assoc_mem eqb k d = match assoc_get eqb k d with Some _ => true | None => false end.
Proof.
  induction d as [|[k0 v0] d IH]; simpl; [done|]. by destruct (eqb k0 k).
Qed.

Lemma add_sale_unknown prices fields total w :
  hashable (product_name_of fields) = true →
  assoc_mem key_eqb (product_name_of fields) prices = false →
  add_sale prices total (JObj fields) w
    = (Ok total,
       World (files w) (stdout w ++ [Warning (product_name_of fields)])).
Proof.
  intros Hh Hm. unfold add_sale, table_contains, py_get.
  fold (product_name_of fields). rewrite !bind_run. simpl.
  rewrite Hh, Hm. reflexivity.
Qed.

Lemma add_file_skip prices st pre post fields w :
  hashable (product_name_of fields) = true →
  assoc_mem key_eqb (product_name_of fields) prices = false →
  (add_file prices st (JArr (pre ++ JObj fields :: post)) w).1
    = (add_file prices st (JArr (pre ++ post)) w).1.
Proof.
  intros Hh Hm. destruct st as [[per_file combined] idx]. unfold add_file.
  rewrite !bind_run. simpl. apply bind_outcome_eq.
  - apply (for_each_skip _ _ _ _ _
      (λ u, World (files u) (stdout u ++ [Warning (product_name_of fields)]))).
    + intros t u. by apply add_sale_unknown.
    + intros. apply world_blind_add_sale.
  - intros total u u'. reflexivity.
Qed.

Lemma compute_total_sales_skip cat products prices before pre post after
    fields w :
  py_iter cat = Ok products →
  price_table products [] = Ok prices →
  hashable (product_name_of fields) = true →
  assoc_mem key_eqb (product_name_of fields) prices = false →
  (compute_total_sales cat
     (before ++ JArr (pre ++ JObj fields :: post) :: after) w).1
  = (compute_total_sales cat (before ++ JArr (pre ++ post) :: after) w).1.
Proof.
  intros Hc Hp Hh Hm. unfold compute_total_sales.
  rewrite !bind_run. unfold lift at 1 3. rewrite Hc.
  rewrite !bind_run. unfold lift at 1 2. rewrite Hp.
  apply bind_outcome_eq; [|intros [[? ?] ?] u u'; reflexivity].
  rewrite !for_each_app. apply bind_outcome_eq; [done|].
  intros st u u'. simpl. apply bind_outcome_eq.
  - rewrite (add_file_skip _ _ _ _ _ u) by done. apply world_blind_add_file.
  - intros st' v v'. apply world_blind_for_each. intros. apply world_blind_add_file.
Qed.

(** ** Duplicate titles in the lookup *)

Lemma price_table_app l1 l2 t :
  price_table (l1 ++ l2) t = price_table l1 t ≫= price_table l2.
Proof.
  revert t. induction l1 as [|p l1 IH]; intros t; simpl; [done|].
  destruct (py_getitem p "title") as [title| |]; try done. simpl.
  destruct (py_getitem p "price") as [price| |]; try done. simpl.
  destruct (table_set title price t) as [t'| |]; try done. simpl.
  apply IH.
Qed.

Lemma key_eqb_str_l a s : key_eqb a (JStr s) = true → a = JStr s.
Proof. destruct a; simpl; try done. by intros ->%String.eqb_eq. Qed.

Lemma key_eqb_str_r s b : key_eqb (JStr s) b = true → b = JStr s.
Proof. destruct b; simpl; try done. by intros ->%String.eqb_eq. Qed.

Lemma key_eqb_str_refl s : key_eqb (JStr s) (JStr s) = true.
Proof. simpl. apply String.eqb_refl. Qed.

Lemma assoc_get_set_same {K V} (eqb : K → K → bool) (k : K) (v : V) d :
  eqb k k = true → assoc_get eqb k (assoc_set eqb k v d) = Some v.
Proof.
  intros Hk. induction d as [|[k0 v0] d IH]; simpl.
  - by rewrite Hk.
  - destruct (eqb k0 k) eqn:E; simpl; by rewrite E.
Qed.

Lemma assoc_get_set_other {K V} (eqb : K → K → bool) (k k2 : K) (v2 : V) d :
  (∀ k', eqb k' k = true → eqb k' k2 = false) →
  eqb k2 k = false →
  assoc_get eqb k (assoc_set eqb k2 v2 d) = assoc_get eqb k d.
Proof.
  intros Hne Hk2. induction d as [|[k0 v0] d IH]; simpl.
  - by rewrite Hk2.
  - destruct (eqb k0 k2) eqn:E2; simpl.
    + destruct (eqb k0 k) eqn:E; [|done]. by rewrite (Hne _ E) in E2.
    + by destruct (eqb k0 k).
Qed.

(** A string title keeps its price through every later entry with another
    title. *)
Lemma price_table_keeps s p post t t' :
  price_table post t = Ok t' →
  assoc_get key_eqb (JStr s) t = Some p →
  (∀ e, e ∈ post → py_getitem e "title" ≠ Ok (JStr s)) →
  assoc_get key_eqb (JStr s) t' = Some p.
Proof.
  revert t. induction post as [|e post IH]; intros t; simpl.
  - by intros [= ->].
  - destruct (py_getitem e "title") as [title| |] eqn:Ht; try done. simpl.
    destruct (py_getitem e "price") as [price| |]; try done. simpl.
    unfold table_set. destruct (hashable title); try done. simpl.
    intros Hrest Hget Hpost. eapply IH; [done| |].
    + rewrite assoc_get_set_other; [done| |].
      * intros k' ->%key_eqb_str_l.
        destruct (key_eqb (JStr s) title) eqn:E; [|done].
        apply key_eqb_str_r in E as ->. destruct (Hpost e); [by left|done].
      * destruct (key_eqb title (JStr s)) eqn:E; [|done].
        apply key_eqb_str_l in E as ->. destruct (Hpost e); [by left|done].
    + intros e' He'. apply Hpost. by right.
Qed.

Lemma price_table_last_wins pre entry post s p prices :
  price_table (pre ++ entry :: post) [] = Ok prices →
  py_getitem entry "title" = Ok (JStr s) →
  py_getitem entry "price" = Ok p →
  (∀ e, e ∈ post → py_getitem e "title" ≠ Ok (JStr s)) →
  assoc_get key_eqb (JStr s) prices = Some p.
Proof.
  rewrite price_table_app. intros H Ht Hp Hpost.
  destruct (price_table pre []) as [t1| |]; try done. simpl in H.
  rewrite Ht, Hp in H. simpl in H.
  eapply price_table_keeps; [exact H| |done].
  apply assoc_get_set_same, key_eqb_str_refl.
Qed.

Lemma add_sale_known prices fields total s p w :
  dict_get "Product" fields = Some (JStr s) →
  assoc_get key_eqb (JStr s) prices = Some p →
  add_sale prices total (JObj fields) w
    = (py_mul p (quantity_of fields) ≫= float_iadd total, w).
Proof.
  intros Hf Hg. unfold add_sale, py_get, table_contains, table_getitem.
  rewrite Hf. rewrite !bind_run. simpl.
  rewrite assoc_get_mem, Hg. rewrite ?bind_run. simpl.
  unfold quantity_of, mbind, M_bind, outcome_bind, lift. simpl.
  by destruct (py_mul p _) as [amount| |].
Qed.

(** ** Loading files *)

Lemma emit_emit w e1 e2 :
  World (files w) ((stdout w ++ [e1]) ++ [e2])
  = World (files w) (stdout w ++ [e1; e2]).
Proof. by rewrite <- app_assoc. Qed.

Lemma load_json_file_doc filename data n w :
  files w !! filename = Some (JsonDoc data) →
  py_len data = Ok n →
  load_json_file filename w
    = (Ok data,
       World (files w) (stdout w ++ [Loading filename; Loaded filename n])).
Proof.
  intros Hf Hn. unfold load_json_file, read_file, print.
  rewrite !bind_run. simpl. rewrite Hf. rewrite !bind_run. unfold lift.
  rewrite Hn. rewrite !bind_run. simpl. by rewrite <- app_assoc.
Qed.

Lemma load_json_file_no_len filename data e w :
  files w !! filename = Some (JsonDoc data) →
  py_len data = Raise e →
  load_json_file filename w
    = (Raise e, World (files w) (stdout w ++ [Loading filename])).
Proof.
  intros Hf Hn. unfold load_json_file, read_file, print.
  rewrite !bind_run. simpl. rewrite Hf. rewrite !bind_run. unfold lift.
  by rewrite Hn.
Qed.

Lemma load_json_file_unreadable filename w :
  match files w !! filename with Some (JsonDoc _) => False | _ => True end →
  load_json_file filename w
    = (Ok (JArr []),
       World (files w) (stdout w ++ [Loading filename; LoadError filename])).
Proof.
  intros Hf. unfold load_json_file, read_file, print.
  rewrite !bind_run. simpl.
  destruct (files w !! filename) as [[v| |l t]|]; try done;
    rewrite !bind_run; simpl; by rewrite <- app_assoc.
Qed.

Lemma py_len_Exit v s : py_len v ≠ Exit s.
Proof. by destruct v. Qed.

(** [load_json_file] never touches the file system. *)
Lemma load_json_file_files filename w :
  files (load_json_file filename w).2 = files w.
Proof.
  destruct (files w !! filename) as [[v| |l t]|] eqn:Hf.
  - destruct (py_len v) as [n|e|s] eqn:Hn.
    + by erewrite load_json_file_doc.
    + by erewrite load_json_file_no_len.
    + by apply py_len_Exit in Hn.
  - rewrite load_json_file_unreadable; [done|by rewrite Hf].
  - rewrite load_json_file_unreadable; [done|by rewrite Hf].
  - rewrite load_json_file_unreadable; [done|by rewrite Hf].
Qed.

(** ** The catalogue builder *)

Lemma generate_warm product_list_file catalogue_file w :
  is_Some (files w !! catalogue_file) →
  generate_price_catalogue product_list_file catalogue_file w
    = load_json_file catalogue_file w.
Proof.
  intros Hc. unfold generate_price_catalogue, path_exists.
  rewrite bind_run. by rewrite bool_decide_eq_true_2.
Qed.

Lemma generate_cold product_list_file catalogue_file w :
  files w !! catalogue_file = None →
  generate_price_catalogue product_list_file catalogue_file w
  = (product_list ← load_json_file product_list_file;
     if negb (py_truthy product_list) then
       print ProductListError;;
       mret (JArr [])
     else
       items ← lift (py_iter product_list);
       catalogue_data ← lift (mapM catalogue_entry items);
       write_file catalogue_file (JsonDoc (JArr catalogue_data));;
       print (Generated catalogue_file (length catalogue_data));;
       mret (JArr catalogue_data)) w.
Proof.
  intros Hc. unfold generate_price_catalogue, path_exists.
  rewrite bind_run. rewrite bool_decide_eq_false_2; [done|].
  rewrite Hc. by intros [? ?].
Qed.

Lemma catalogue_entry_Ok item entry :
  catalogue_entry item = Ok entry ↔ projects item entry.
Proof.
  unfold catalogue_entry, projects, py_getitem. split.
  - destruct item as [| | | | | |fields]; try done. simpl.
    destruct (dict_get "title" fields) as [title|] eqn:Ht; try done. simpl.
    destruct (dict_get "price" fields) as [price|] eqn:Hp; try done. simpl.
    intros [= <-]. by exists fields, title, price.
  - intros (fields & title & price & -> & Ht & Hp & ->).
    by rewrite Ht, Hp.
Qed.

Lemma catalogue_entry_wf item :
  has_title_and_price item = true ↔ ∃ entry, catalogue_entry item = Ok entry.
Proof.
  unfold has_title_and_price, catalogue_entry, py_getitem. split.
  - destruct item as [| | | | | |fields]; try done.
    destruct (dict_get "title" fields) as [title|]; try done.
    destruct (dict_get "price" fields) as [price|]; try done. eauto.
  - intros [entry H]. destruct item as [| | | | | |fields]; try done.
    destruct (dict_get "title" fields) as [title|]; try done.
    by destruct (dict_get "price" fields) as [price|].
Qed.

Lemma mapM_outcome_Ok {A B} (f : A → outcome B) l k :
  mapM f l = Ok k ↔ Forall2 (λ x y, f x = Ok y) l k.
Proof.
  revert k. induction l as [|x l IH]; intros k; simpl.
  - split; [intros [= <-]; constructor|by inversion 1].
  - split.
    + destruct (f x) as [y| |] eqn:Hx; try done. simpl.
      destruct (mapM f l) as [k'| |]; try done. simpl.
      intros [= <-]. constructor; [done|]. by apply IH.
    + inversion 1 as [|? y ? k' Hx Hl]; subst. rewrite Hx. simpl.
      apply IH in Hl. rewrite Hl. done.
Qed.

Lemma mapM_catalogue_entry_wf items :
  forallb has_title_and_price items = true ↔
  ∃ entries, mapM catalogue_entry items = Ok entries.
Proof.
  induction items as [|item items IH]; simpl.
  - split; eauto.
  - rewrite andb_true_iff, catalogue_entry_wf, IH. split.
    + intros [[e He] [es Hes]]. rewrite He, Hes. simpl. eauto.
    + intros [es H]. destruct (catalogue_entry item) as [e| |]; try done.
      simpl in H. destruct (mapM catalogue_entry items) as [es'| |]; try done.
      eauto.
Qed.

Lemma mapM_catalogue_entry_str s items :
  mapM catalogue_entry (JStr s :: items) = Raise TypeError.
Proof. reflexivity. Qed.

Lemma generate_cold_derives product_list_file catalogue_file items entries w :
  files w !! catalogue_file = None →
  files w !! product_list_file = Some (JsonDoc (JArr items)) →
  items ≠ [] →
  mapM catalogue_entry items = Ok entries →
  generate_price_catalogue product_list_file catalogue_file w
  = (Ok (JArr entries),
     World (<[catalogue_file := JsonDoc (JArr entries)]> (files w))
           (stdout w ++ [Loading product_list_file;
                         Loaded product_list_file (length items);
                         Generated catalogue_file (length entries)])).
Proof.
  intros Hc Hp Hne Hm. rewrite generate_cold by done.
  rewrite bind_run, (load_json_file_doc _ _ (length items)) by done.
  destruct items as [|item items]; [done|]. cbn [py_truthy negb].
  rewrite bind_run. cbn [py_iter]. unfold lift at 1.
  rewrite bind_run. unfold lift at 1. rewrite Hm.
  unfold write_file, print. rewrite !bind_run. simpl.
  by rewrite <- app_assoc.
Qed.

Lemma catalogue_entry_no_exit item s : catalogue_entry item ≠ Exit s.
Proof.
  unfold catalogue_entry, py_getitem. destruct item as [| | | | | |fields]; try done.
  simpl. destruct (dict_get "title" fields); try done. simpl.
  by destruct (dict_get "price" fields).
Qed.

Lemma mapM_no_exit {A B} (f : A → outcome B) l s :
  (∀ x s', f x ≠ Exit s') → mapM f l ≠ Exit s.
Proof.
  intros Hf. induction l as [|x l IH]; simpl; [done|].
  destruct (f x) as [y| |s'] eqn:Hx; simpl; try done; [|by apply Hf in Hx].
  by destruct (mapM f l).
Qed.

(** How [load_json_file] runs, in every case: it only appends progress lines
    to the console, returns a non-empty document for a usable file, an empty
    one for an unusable file, and raises otherwise (a document without a
    length). *)
Lemma load_json_file_run filename w :
  ∃ o evs,
    load_json_file filename w = (o, World (files w) (stdout w ++ evs)) ∧
    forallb progress evs = true ∧
    match o with
    | Ok v =>
        py_truthy v = usable (files w !! filename) ∧
        negb (py_truthy v) = unusable (files w !! filename)
    | Raise _ =>
        usable (files w !! filename) = false ∧
        unusable (files w !! filename) = false
    | Exit _ => False
    end.
Proof.
  destruct (files w !! filename) as [[v| |l t]|] eqn:Hf.
  2-4: eexists _, _; split;
       [apply load_json_file_unreadable; by rewrite Hf|done].
  destruct (py_len v) as [n|e|s] eqn:Hn.
  - eexists _, _. split; [by eapply load_json_file_doc|]. split; [done|].
    destruct v as [| | | |[|c s]|[|x l]|[|x l]]; done.
  - eexists _, _. split; [by eapply load_json_file_no_len|]. split; [done|].
    destruct v; done.
  - by apply py_len_Exit in Hn.
Qed.

(** How [generate_price_catalogue] runs, in every case. *)
Lemma generate_cases product_list_file catalogue_file w :
  let out := generate_price_catalogue product_list_file catalogue_file w in
  (is_Some (files w !! catalogue_file) ∧
   out = load_json_file catalogue_file w)
  ∨
  (files w !! catalogue_file = None ∧
   well_formed_products (files w !! product_list_file) = true ∧
   ∃ items entries,
     files w !! product_list_file = Some (JsonDoc (JArr items)) ∧
     mapM catalogue_entry items = Ok entries ∧
     out = (Ok (JArr entries),
            World (<[catalogue_file := JsonDoc (JArr entries)]> (files w))
                  (stdout w ++ [Loading product_list_file;
                                Loaded product_list_file (length items);
                                Generated catalogue_file (length entries)])))
  ∨
  (files w !! catalogue_file = None ∧
   well_formed_products (files w !! product_list_file) = false ∧
   ∃ o evs,
     out = (o, World (files w) (stdout w ++ evs)) ∧
     forallb progress evs = true ∧
     ((unusable (files w !! product_list_file) = true ∧ o = Ok (JArr [])) ∨
      (unusable (files w !! product_list_file) = false ∧ ∃ e, o = Raise e))).
Proof.
  simpl. destruct (files w !! catalogue_file) as [c|] eqn:Hc.
  { left. split; [done|]. apply generate_warm. by rewrite Hc. }
  right.
  destruct (files w !! product_list_file) as [[v| |l t]|] eqn:Hp.
  2-4: right; split; [done|]; split; [done|];
       rewrite generate_cold, bind_run by done;
       rewrite load_json_file_unreadable by (by rewrite Hp);
       eexists _, _; split;
         [finish_run|];
       split; [done|by left].
  destruct (py_len v) as [n|e|s] eqn:Hn.
  3: by apply py_len_Exit in Hn.
  2: { right. split; [done|]. split; [by destruct v|].
       rewrite generate_cold, bind_run by done.
       erewrite load_json_file_no_len by done.
       eexists _, _. split; [done|]. split; [done|].
       right. split; [by destruct v|eauto]. }
  destruct v as [| | | |s|items|fields]; try done.
  - right. split; [done|]. split; [done|].
    rewrite generate_cold, bind_run by done.
    erewrite load_json_file_doc by done.
    destruct s as [|c s].
    + eexists _, _. split;
        [finish_run|].
      split; [done|by left].
    + eexists _, _. split; [reflexivity|]. split; [done|]. right. eauto.
  - destruct items as [|item items].
    { right. split; [done|]. split; [done|].
      rewrite generate_cold, bind_run by done.
      erewrite load_json_file_doc by done.
      eexists _, _. split;
        [finish_run|].
      split; [done|by left]. }
    destruct (mapM catalogue_entry (item :: items)) as [entries|e|s] eqn:Hm.
    3: by apply mapM_no_exit in Hm; [|apply catalogue_entry_no_exit].
    + left. split; [done|]. split; [apply mapM_catalogue_entry_wf; eauto|].
      exists (item :: items), entries. split; [done|]. split; [done|].
      by apply generate_cold_derives.
    + right. split; [done|]. split.
      { apply not_true_is_false.
        intros (es & Hes)%mapM_catalogue_entry_wf. congruence. }
      rewrite generate_cold, bind_run by done.
      erewrite load_json_file_doc by done.
      cbn [py_truthy negb].
      rewrite bind_run. cbn [py_iter]. unfold lift at 1.
      rewrite bind_run. unfold lift at 1. rewrite Hm.
      eexists _, _. split; [done|]. split; [done|]. right. eauto.
  - right. split; [done|]. split; [done|].
    rewrite generate_cold, bind_run by done.
    erewrite load_json_file_doc by done.
    destruct fields as [|[k x] fields].
    + eexists _, _. split;
        [finish_run|].
      split; [done|by left].
    + eexists _, _. split; [reflexivity|]. split; [done|]. right. eauto.
Qed.

(** ** The driver *)

Lemma generate_run product_list_file catalogue_file w :
  ∃ o fs evs,
    generate_price_catalogue product_list_file catalogue_file w
      = (o, World fs (stdout w ++ evs)) ∧
    forallb progress evs = true ∧
    (fs = files w ∨
     (files w !! catalogue_file = None ∧
      ∃ entries, fs = <[catalogue_file := JsonDoc (JArr entries)]> (files w))).
Proof.
  destruct (generate_cases product_list_file catalogue_file w)
    as [[_ ->]|[(Hc & _ & items & entries & _ & _ & ->)
               |(_ & _ & o & evs & -> & Hevs & _)]].
  - destruct (load_json_file_run catalogue_file w) as (o & evs & -> & Hevs & _).
    eexists _, _, _. split; [done|]. split; [done|]. by left.
  - eexists _, _, _. split; [done|]. split; [done|]. right. eauto.
  - eexists _, _, _. split; [done|]. split; [done|]. by left.
Qed.

Lemma generate_unusable product_list_file w :
  catalogue_unusable w product_list_file = true →
  ∃ cat evs,
    generate_price_catalogue product_list_file default_catalogue_file w
      = (Ok cat, World (files w) (stdout w ++ evs)) ∧
    forallb progress evs = true ∧
    py_truthy cat = false.
Proof.
  unfold catalogue_unusable. intros Hu.
  destruct (generate_cases product_list_file default_catalogue_file w)
    as [[[c Hc] ->]|[(Hc & Hwf & _)|(Hc & _ & o & evs & -> & Hevs & Ho)]].
  - rewrite Hc in Hu.
    destruct (load_json_file_run default_catalogue_file w)
      as (o & evs & -> & Hevs & Ho).
    rewrite Hc, Hu in Ho. destruct o as [v| |]; [|by destruct Ho..].
    exists v, evs. split; [done|]. split; [done|].
    destruct Ho as [_ Ho]. by apply negb_true_iff.
  - rewrite Hc in Hu.
    destruct (files w !! product_list_file) as [[[| | | | |[|??]|]| |]|]; done.
  - rewrite Hc in Hu. destruct Ho as [[_ ->]|[Hn _]]; [|congruence].
    by exists (JArr []), evs.
Qed.

Lemma load_all_run sales_files w :
  ∃ o evs,
    mapM load_json_file sales_files w = (o, World (files w) (stdout w ++ evs)) ∧
    forallb progress evs = true ∧
    (forallb (λ f, usable (files w !! f) || unusable (files w !! f)) sales_files
       = true →
     ∃ sales_data_list,
       o = Ok sales_data_list ∧
       Forall2 (λ f v, negb (py_truthy v) = unusable (files w !! f))
         sales_files sales_data_list).
Proof.
  revert w. induction sales_files as [|f fs IH]; intros w.
  - exists (Ok []), []. split; [by rewrite app_nil_r; destruct w|].
    split; [done|]. intros _. exists []. split; [done|constructor].
  - simpl. destruct (load_json_file_run f w) as (o & evs & Hrun & Hevs & Ho).
    rewrite bind_run, Hrun. destruct o as [v|e|s]; [| |done].
    + destruct (IH (World (files w) (stdout w ++ evs)))
        as (o' & evs' & Hrun' & Hevs' & Ho').
      rewrite bind_run, Hrun'. simpl in *.
      destruct o' as [vs|e|s].
      * eexists _, (evs ++ evs'). split; [cbn; by rewrite <- app_assoc|].
        split; [by rewrite forallb_app, Hevs, Hevs'|].
        intros [_ Hall]%andb_true_iff.
        destruct (Ho' Hall) as (vs' & [= <-] & HF).
        exists (v :: vs). split; [done|]. constructor; [apply Ho|done].
      * eexists _, (evs ++ evs'). split; [by rewrite <- app_assoc|].
        split; [by rewrite forallb_app, Hevs, Hevs'|].
        intros [_ Hall]%andb_true_iff. by destruct (Ho' Hall) as (? & ? & _).
      * eexists _, (evs ++ evs'). split; [by rewrite <- app_assoc|].
        split; [by rewrite forallb_app, Hevs, Hevs'|].
        intros [_ Hall]%andb_true_iff. by destruct (Ho' Hall) as (? & ? & _).
    + exists (Raise e), evs. split; [done|]. split; [done|].
      intros [Hf _]%andb_true_iff. destruct Ho as [H1 H2].
      by rewrite H1, H2 in Hf.
Qed.

Lemma check_sales_exits (fs : gmap string content) sales_files sales_data_list :
  Forall2 (λ f v, negb (py_truthy v) = unusable (fs !! f))
    sales_files sales_data_list →
  existsb (λ f, unusable (fs !! f)) sales_files = true →
  ∃ f, f ∈ sales_files ∧
       unusable (fs !! f) = true ∧
       ∀ w, check_sales sales_files sales_data_list w
            = (Exit 1, World (files w) (stdout w ++ [SalesFileError f])).
Proof.
  induction 1 as [|f v fs' vs Hv HF IH]; simpl; [done|].
  destruct (unusable (fs !! f)) eqn:Hu; simpl.
  - intros _. exists f. split; [by left|]. split; [done|].
    intros w. rewrite Hv. reflexivity.
  - intros (f' & Hin & Hbad & Hrun)%IH. exists f'. split; [by right|].
    split; [done|]. intros w. rewrite Hv. apply Hrun.
Qed.

Lemma main_usage argv execution_time w :
  (length argv < 3)%nat →
  main argv execution_time w = (Exit 1, World (files w) (stdout w ++ [Usage])).
Proof.
  intros Hlen. unfold main.
  destruct (Nat.ltb_spec (length argv) 3) as [_|?]; [reflexivity|lia].
Qed.

Lemma main_no_catalogue argv execution_time cat w w1 :
  (3 ≤ length argv)%nat →
  generate_price_catalogue (nth 1 argv "") default_catalogue_file w
    = (Ok cat, w1) →
  py_truthy cat = false →
  main argv execution_time w
    = (Exit 1, World (files w1) (stdout w1 ++ [CatalogueError])).
Proof.
  intros Hlen Hgen Hcat. unfold main.
  destruct (Nat.ltb_spec (length argv) 3) as [?|_]; [lia|].
  rewrite bind_run, Hgen, Hcat. reflexivity.
Qed.

Lemma main_bad_sales argv execution_time cat w w1 :
  (3 ≤ length argv)%nat →
  generate_price_catalogue (nth 1 argv "") default_catalogue_file w
    = (Ok cat, w1) →
  py_truthy cat = true →
  sales_unusable (files w1) (drop 2 argv) = true →
  ∃ evs f,
    f ∈ drop 2 argv ∧
    unusable (files w1 !! f) = true ∧
    forallb progress evs = true ∧
    main argv execution_time w
      = (Exit 1, World (files w1) (stdout w1 ++ evs ++ [SalesFileError f])).
Proof.
  intros Hlen Hgen Hcat [Hall Hex]%andb_true_iff. unfold main.
  destruct (Nat.ltb_spec (length argv) 3) as [?|_]; [lia|].
  rewrite bind_run, Hgen, Hcat. cbn [negb].
  destruct (load_all_run (drop 2 argv) w1) as (o & evs & Hrun & Hevs & Ho).
  destruct (Ho Hall) as (vs & -> & HF).
  destruct (check_sales_exits _ _ _ HF Hex) as (f & Hin & Hbad & Hchk).
  exists evs, f. split; [done|]. split; [done|]. split; [done|].
  rewrite bind_run, Hrun, bind_run, Hchk. cbn. by rewrite <- app_assoc.
Qed.

(** ** Inputs on which the aggregator returns *)

Lemma returns_ret {A} (a : A) : returns (mret a) a [].
Proof. intros [fs out]. cbn. by rewrite app_nil_r. Qed.

Lemma returns_lift {A} (a : A) : returns (lift (Ok a)) a [].
Proof. intros [fs out]. cbn. by rewrite app_nil_r. Qed.

Lemma returns_bind {A B} (m : M A) (f : A → M B) a b e1 e2 :
  returns m a e1 → returns (f a) b e2 → returns (m ≫= f) b (e1 ++ e2).
Proof.
  intros Hm Hf w. rewrite bind_run, Hm, Hf. cbn. by rewrite <- app_assoc.
Qed.

Lemma returns_for_each {A S} (body : S → A → M S) l s :
  (∀ s x, x ∈ l → ∃ s' evs, returns (body s x) s' evs) →
  ∃ s' evs, returns (for_each body l s) s' evs.
Proof.
  revert s. induction l as [|x l IH]; intros s Hb; simpl.
  - eexists _, _. apply returns_ret.
  - destruct (Hb s x) as (s1 & e1 & H1); [by left|].
    destruct (IH s1) as (s2 & e2 & H2); [intros; apply Hb; by right|].
    eexists _, _. by eapply returns_bind.
Qed.

Lemma price_table_wf entries t :
  forallb catalogue_entry_ok entries = true →
  ∃ t', price_table entries t = Ok t'.
Proof.
  revert t. induction entries as [|entry entries IH]; intros t; simpl.
  - eauto.
  - intros [He Hes]%andb_true_iff.
    destruct entry as [| | | | | |fields]; try done. simpl in *.
    destruct (dict_get "title" fields) as [title|]; try done.
    destruct (dict_get "price" fields) as [price|]; try done. simpl.
    unfold table_set. rewrite He. simpl. by apply IH.
Qed.

Lemma float_iadd_any total amount x :
  float_iadd 0%float amount = Ok x →
  ∃ y, float_iadd total amount = Ok y.
Proof.
  unfold float_iadd. destruct (as_number amount) as [n|]; [|done].
  destruct (to_float n) as [f| |]; simpl; [eauto|done..].
Qed.

Lemma add_sale_returns prices total sale :
  sale_ok prices sale = true →
  ∃ total' evs, returns (add_sale prices total sale) total' evs.
Proof.
  destruct sale as [| | | | | |fields]; try done. simpl.
  intros [Hh Hp]%andb_true_iff.
  destruct (assoc_get key_eqb (product_name_of fields) prices) as [p|] eqn:Hg.
  - unfold amount_ok in Hp.
    destruct (py_mul p (quantity_of fields)) as [amount| |] eqn:Hm; try done.
    simpl in Hp. destruct (float_iadd 0 amount) as [x| |] eqn:Ha; try done.
    destruct (float_iadd_any total _ _ Ha) as [y Hy].
    exists y, []. intros [fs out].
    unfold add_sale, py_get, table_contains, table_getitem.
    fold (product_name_of fields). fold (quantity_of fields).
    rewrite !bind_run. simpl. rewrite Hh, assoc_get_mem, Hg.
    unfold mbind, M_bind, lift. simpl. rewrite Hm, Hy.
    by rewrite app_nil_r.
  - eexists _, _. intros w. apply add_sale_unknown; [done|].
    by rewrite assoc_get_mem, Hg.
Qed.

Lemma add_file_returns prices st sales_data :
  sales_ok prices sales_data = true →
  ∃ st' evs, returns (add_file prices st sales_data) st' evs.
Proof.
  destruct sales_data as [| | | | |sales|]; try done. simpl. intros Hs.
  destruct st as [[per_file combined] idx]. unfold add_file.
  destruct (returns_for_each (add_sale prices) sales 0%float)
    as (total & evs & Hrun).
  { intros t x Hx. apply add_sale_returns.
    rewrite forallb_forall in Hs. apply Hs. by apply list_elem_of_In. }
  eexists _, _. eapply returns_bind; [apply returns_lift|].
  eapply returns_bind; [apply Hrun|]. apply returns_ret.
Qed.

(** On a well-formed catalogue and sales files made of acceptable records,
    [compute_total_sales] returns. *)
Lemma compute_total_sales_returns product_catalogue sales_data_list :
  acceptable_input product_catalogue sales_data_list = true →
  ∃ r evs,
    returns (compute_total_sales product_catalogue sales_data_list) r evs.
Proof.
  unfold acceptable_input.
  destruct product_catalogue as [| | | | |entries|]; try done.
  intros [Hwf Hs]%andb_true_iff.
  destruct (price_table entries []) as [prices| |] eqn:Hp; try done.
  destruct (returns_for_each (add_file prices) sales_data_list ([], 0%float, 1))
    as ([[per_file combined] idx] & evs & Hrun).
  { intros st x Hx. apply add_file_returns.
    rewrite forallb_forall in Hs. apply Hs. by apply list_elem_of_In. }
  unfold compute_total_sales. eexists _, _.
  eapply returns_bind; [apply returns_lift|].
  eapply returns_bind; [rewrite Hp; apply returns_lift|].
  eapply returns_bind; [apply Hrun|]. apply returns_ret.
Qed.

(** ** The lookup has unique keys *)

Lemma assoc_set_distinct k v t :
  keys_distinct t → keys_distinct (assoc_set key_eqb k v t).
Proof.
  induction t as [|[k0 v0] t IH]; simpl.
  - intros _. split; [|done]. intros k' Hk'. by apply elem_of_nil in Hk'.
  - intros [Hk0 Ht]. destruct (key_eqb k0 k) eqn:E; simpl; [done|].
    split; [|by apply IH].
    intros k' [Hk'| ->]%assoc_set_keys; [by apply Hk0|done].
Qed.

(** Whatever the catalogue repeats, the title-to-price lookup built from it
    has each key once. *)
Lemma price_table_distinct products t t' :
  price_table products t = Ok t' → keys_distinct t → keys_distinct t'.
Proof.
  revert t. induction products as [|p products IH]; intros t; simpl.
  - by intros [= ->].
  - destruct (py_getitem p "title") as [title| |]; try done. simpl.
    destruct (py_getitem p "price") as [price| |]; try done. simpl.
    unfold table_set. destruct (hashable title); try done. simpl.
    intros Hrest Ht. eapply IH; [done|]. by apply assoc_set_distinct.
Qed.

(** ** The model on examples *)

(** The scenarios of the specification. *)
Example scenario_one_file :
  compute_total_sales widget_catalogue [first_sales] blank_world
  = (Ok [("Sales File 1", 29.97%float); ("Total Combined Sales", 29.97%float)],
     blank_world).
Proof. vm_compute. reflexivity. Qed.

Example scenario_unknown_product :
  compute_total_sales widget_catalogue [first_sales; second_sales] blank_world
  = (Ok widget_totals, World ∅ [Warning (JStr "Gadget")]).
Proof. vm_compute. reflexivity. Qed.

Example scenario_full_run :
  main ["compute_sales.py"; "products.json"; "sales.json"] 0.25%float cold_world
  = (Ok (),
     World (<[default_output_file :=
                Report [("Sales File 1", 29.97%float);
                        ("Total Combined Sales", 29.97%float)] 0.25%float]>
              (<[default_catalogue_file := JsonDoc widget_catalogue]>
                 (files cold_world)))
           [Loading "products.json"; Loaded "products.json" 1;
            Generated default_catalogue_file 1;
            Loading "sales.json"; Loaded "sales.json" 1;
            ResultText [("Sales File 1", 29.97%float);
                        ("Total Combined Sales", 29.97%float)] 0.25%float]).
Proof. vm_compute. reflexivity. Qed.

(** Where the program raises instead of degrading: values the dictionary
    cannot hash, amounts that are not numbers or do not fit a [float], a cache
    document without a length. *)
Example unhashable_product_raises :
  add_sale [(JStr "Widget", JFloat 9.99)] 0%float
    (JObj [("Product", JArr [JStr "Widget"]); ("Quantity", JInt 1)]) blank_world
  = (Raise TypeError, blank_world).
Proof. reflexivity. Qed.

Example text_quantity_raises :
  add_sale [(JStr "Widget", JFloat 9.99)] 0%float
    (JObj [("Product", JStr "Widget"); ("Quantity", JStr "3")]) blank_world
  = (Raise TypeError, blank_world).
Proof. reflexivity. Qed.

Example huge_quantity_raises :
  add_sale [(JStr "Widget", JFloat 9.99)] 0%float
    (JObj [("Product", JStr "Widget"); ("Quantity", JInt (2 ^ 1024))])
    blank_world
  = (Raise OverflowError, blank_world).
Proof. vm_compute. reflexivity. Qed.

Example scalar_cache_raises :
  generate_price_catalogue "products.json" default_catalogue_file
    scalar_cache_world
  = (Raise TypeError,
     World (files scalar_cache_world) [Loading default_catalogue_file]).
Proof. vm_compute. reflexivity. Qed.

(** A record without "Product" is looked up as [None]; no string title is
    [None], so against a catalogue of string titles it is an unknown
    product. *)
Lemma missing_product_key_warns products prices fields total w :
  price_table products [] = Ok prices →
  (∀ product title,
     product ∈ products → py_getitem product "title" = Ok title →
     ∃ s, title = JStr s) →
  dict_get "Product" fields = None →
  add_sale prices total (JObj fields) w
    = (Ok total, World (files w) (stdout w ++ [Warning JNull])).
Proof.
  intros Hp Hstr Hf.
  assert (Hn : product_name_of fields = JNull)
    by (unfold product_name_of; by rewrite Hf).
  rewrite <- Hn. apply add_sale_unknown; rewrite Hn; [done|].
  apply assoc_mem_false. intros k Hk.
  destruct (price_table_keys _ _ _ _ Hp Hk) as [Hnil|(product & Hin & Ht)].
  - by apply elem_of_nil in Hnil.
  - destruct (Hstr _ _ Hin Ht) as [s ->]. reflexivity.
Qed.

(** ** The totals mapping *)

Lemma per_file_totals_shape n totals combined :
  length totals = n →
  per_file_totals (zip (sales_file_labels n) totals
                     ++ [("Total Combined Sales", combined)]) = totals.
Proof.
  intros Hlen. unfold per_file_totals. rewrite List.filter_app. simpl.
  rewrite app_nil_r.
  rewrite List.forallb_filter_id.
  - apply snd_zip. unfold sales_file_labels. rewrite length_fmap, length_seq. lia.
  - apply forallb_forall. intros [k v] Hin%list_elem_of_In.
    apply elem_of_zip_l in Hin. simpl in *. unfold sales_file_labels in Hin.
    apply list_elem_of_fmap in Hin as (i & -> & _). apply sales_file_label_prefix.
Qed.

(** C1. Whenever [compute_total_sales] returns, its "Total Combined Sales"
    entry is the sum of the "Sales File n" entries of the same mapping, added
    from [0.0] in the mapping's order with binary64 addition, which is the
    order in which the single loop accumulated them. *)
Theorem combined_total_is_sum product_catalogue sales_data_list w r w' :
  compute_total_sales product_catalogue sales_data_list w = (Ok r, w') →
  dict_get "Total Combined Sales" r
    = Some (fold_left PrimFloat.add (per_file_totals r) 0%float).
Proof.
  intros (totals & Hlen & ->)%compute_total_sales_shape.
  rewrite per_file_totals_shape by done.
  apply dict_get_app_fresh. rewrite fst_zip; [apply combined_label_fresh|].
  unfold sales_file_labels. rewrite length_fmap, length_seq. lia.
Qed.

Lemma combined_total_is_sum_witness :
  compute_total_sales widget_catalogue [first_sales; second_sales] blank_world
    = (Ok widget_totals, World ∅ [Warning (JStr "Gadget")]) ∧
  dict_get "Total Combined Sales" widget_totals
    = Some (fold_left PrimFloat.add (per_file_totals widget_totals) 0%float).
Proof.
  assert (H : compute_total_sales widget_catalogue [first_sales; second_sales]
                blank_world
              = (Ok widget_totals, World ∅ [Warning (JStr "Gadget")]))
    by (vm_compute; reflexivity).
  split; [exact H|]. exact (combined_total_is_sum _ _ _ _ _ H).
Defined.

(** C5. Whenever [compute_total_sales] returns for [n] sales collections, the
    keys of the mapping, in iteration order, are "Sales File 1" to
    "Sales File n" followed by "Total Combined Sales". *)
Theorem totals_in_file_order product_catalogue sales_data_list w r w' :
  compute_total_sales product_catalogue sales_data_list w = (Ok r, w') →
  r.*1 = (sales_file_label <$> seq 1 (length sales_data_list))
           ++ ["Total Combined Sales"].
Proof.
  intros (totals & Hlen & ->)%compute_total_sales_shape.
  rewrite fmap_app. simpl. f_equal. apply fst_zip.
  unfold sales_file_labels. rewrite length_fmap, length_seq. lia.
Qed.

Lemma totals_in_file_order_witness :
  compute_total_sales widget_catalogue [first_sales; second_sales] blank_world
    = (Ok widget_totals, World ∅ [Warning (JStr "Gadget")]) ∧
  widget_totals.*1 = (sales_file_label <$> seq 1 2) ++ ["Total Combined Sales"].
Proof.
  assert (H : compute_total_sales widget_catalogue [first_sales; second_sales]
                blank_world
              = (Ok widget_totals, World ∅ [Warning (JStr "Gadget")]))
    by (vm_compute; reflexivity).
  split; [exact H|]. exact (totals_in_file_order _ _ _ _ _ H).
Defined.

(** C10. Whenever [compute_total_sales] returns for [n] sales collections the
    mapping has [n + 1] entries, and on acceptable input it does return; for a
    well-formed catalogue and no sales collection at all it returns exactly
    [{"Total Combined Sales": 0.0}], printing nothing. *)
Theorem totals_size product_catalogue sales_data_list w :
  (∀ r w', compute_total_sales product_catalogue sales_data_list w = (Ok r, w') →
           length r = length sales_data_list + 1) ∧
  (acceptable_input product_catalogue sales_data_list = true →
   ∃ r w',
     compute_total_sales product_catalogue sales_data_list w = (Ok r, w') ∧
     length r = length sales_data_list + 1) ∧
  (well_formed_catalogue product_catalogue = true →
   compute_total_sales product_catalogue [] w
     = (Ok [("Total Combined Sales", 0%float)], w)).
Proof.
  assert (Hsize : ∀ r w',
    compute_total_sales product_catalogue sales_data_list w = (Ok r, w') →
    length r = length sales_data_list + 1).
  { intros r w' (totals & Hlen & ->)%compute_total_sales_shape.
    rewrite length_app, length_zip. unfold sales_file_labels.
    rewrite length_fmap, length_seq. simpl. lia. }
  split; [exact Hsize|]. split.
  - intros (r & evs & Hrun)%compute_total_sales_returns.
    eexists r, _. split; [apply Hrun|]. eapply Hsize, Hrun.
  - destruct product_catalogue as [| | | | |entries|]; try done. simpl.
    intros [prices Hp]%(price_table_wf _ []).
    unfold compute_total_sales. rewrite !bind_run. simpl.
    unfold lift. rewrite Hp. reflexivity.
Qed.

Lemma totals_size_witness :
  length widget_totals = 2 + 1 ∧
  (∃ r w',
     compute_total_sales widget_catalogue [first_sales; second_sales]
       blank_world = (Ok r, w') ∧
     length r = 2 + 1) ∧
  compute_total_sales widget_catalogue [] blank_world
    = (Ok [("Total Combined Sales", 0%float)], blank_world).
Proof.
  split; [|split].
  - apply (proj1 (totals_size widget_catalogue [first_sales; second_sales]
                    blank_world) widget_totals
                 (World ∅ [Warning (JStr "Gadget")])).
    vm_compute. reflexivity.
  - apply (proj1 (proj2 (totals_size widget_catalogue
                           [first_sales; second_sales] blank_world))).
    vm_compute. reflexivity.
  - apply (proj2 (proj2 (totals_size widget_catalogue [] blank_world))).
    vm_compute. reflexivity.
Defined.

(** ** Unknown products *)

(** C2, amended. Take a catalogue the lookup can be built from, and a sale
    record whose product value (the value under "Product", [None] when the
    key is missing) is hashable (a string, a number, a boolean or [None]) and
    is equal, as a dictionary key, to no catalogue title.  Then processing the record returns without
    raising, leaves the file's running total as it was, prints one warning
    naming the product value, and the loop goes on with the next record; and
    what [compute_total_sales] returns or raises is the same with the record
    as without it. *)
Theorem unknown_product_adds_nothing products prices fields :
  price_table products [] = Ok prices →
  hashable (product_name_of fields) = true →
  (∀ product title,
     product ∈ products →
     py_getitem product "title" = Ok title →
     key_eqb title (product_name_of fields) = false) →
  (∀ total w,
     add_sale prices total (JObj fields) w
       = (Ok total,
          World (files w) (stdout w ++ [Warning (product_name_of fields)]))) ∧
  (∀ total rest w,
     for_each (add_sale prices) (JObj fields :: rest) total w
       = for_each (add_sale prices) rest total
           (World (files w) (stdout w ++ [Warning (product_name_of fields)]))) ∧
  (∀ product_catalogue before pre post after w,
     py_iter product_catalogue = Ok products →
     (compute_total_sales product_catalogue
        (before ++ JArr (pre ++ JObj fields :: post) :: after) w).1
     = (compute_total_sales product_catalogue
          (before ++ JArr (pre ++ post) :: after) w).1).
Proof.
  intros Hp Hh Habsent.
  assert (Hm : assoc_mem key_eqb (product_name_of fields) prices = false).
  { apply assoc_mem_false. intros k Hk.
    destruct (price_table_keys _ _ _ _ Hp Hk) as [Hnil|(product & Hin & Ht)].
    - by apply elem_of_nil in Hnil.
    - by eapply Habsent. }
  split; [|split].
  - intros total w. by apply add_sale_unknown.
  - intros total rest w. simpl. rewrite bind_run.
    by rewrite add_sale_unknown.
  - intros cat before pre post after w Hc. by eapply compute_total_sales_skip.
Qed.

Lemma unknown_product_adds_nothing_witness :
  add_sale [(JStr "Widget", JFloat 9.99)] 29.97%float (JObj gadget_sale)
    blank_world
  = (Ok 29.97%float, World ∅ [Warning (JStr "Gadget")]) ∧
  add_sale [(JStr "Widget", JFloat 9.99)] 29.97%float (JObj quantity_only_sale)
    blank_world
  = (Ok 29.97%float, World ∅ [Warning JNull]).
Proof.
  split.
  - refine (proj1 (unknown_product_adds_nothing
                     [JObj [("title", JStr "Widget"); ("price", JFloat 9.99)]]
                     [(JStr "Widget", JFloat 9.99)] gadget_sale _ _ _)
                  29.97%float blank_world).
    + reflexivity.
    + reflexivity.
    + intros product title Hin%list_elem_of_singleton Ht. subst product.
      injection Ht as <-. reflexivity.
  - refine (proj1 (unknown_product_adds_nothing
                     [JObj [("title", JStr "Widget"); ("price", JFloat 9.99)]]
                     [(JStr "Widget", JFloat 9.99)] quantity_only_sale _ _ _)
                  29.97%float blank_world).
    + reflexivity.
    + reflexivity.
    + intros product title Hin%list_elem_of_singleton Ht. subst product.
      injection Ht as <-. reflexivity.
Defined.

(** C2, as stated, fails on two kinds of input.  A record whose "Product"
    value is a list is absent from the catalogue (no title equals it), yet
    looking it up raises [TypeError].  And a record without "Product" is
    looked up as [None]: against a catalogue that has a null title it is
    priced like any known product, with no warning. *)
Lemma unknown_product_raises_or_is_priced :
  key_eqb (JStr "Widget") (product_name_of list_product_sale) = false ∧
  compute_total_sales widget_catalogue [JArr [JObj list_product_sale]]
    blank_world
  = (Raise TypeError, blank_world) ∧
  dict_get "Product" quantity_only_sale = None ∧
  compute_total_sales null_title_catalogue [JArr [JObj quantity_only_sale]]
    blank_world
  = (Ok [("Sales File 1", 6%float); ("Total Combined Sales", 6%float)],
     blank_world).
Proof. repeat split; vm_compute; reflexivity. Qed.

(** ** Duplicate titles *)

(** C9. When several catalogue entries carry the same (string) title, the
    lookup holds the price of the last of them, and a sale of that title is
    priced with it: the record adds [price * quantity] for the last entry's
    price to the running total. *)
Theorem last_duplicate_title_wins pre entry post s p prices :
  price_table (pre ++ entry :: post) [] = Ok prices →
  py_getitem entry "title" = Ok (JStr s) →
  py_getitem entry "price" = Ok p →
  (∀ e, e ∈ post → py_getitem e "title" ≠ Ok (JStr s)) →
  table_getitem (JStr s) prices = Ok p ∧
  ∀ fields total w,
    dict_get "Product" fields = Some (JStr s) →
    add_sale prices total (JObj fields) w
      = (py_mul p (quantity_of fields) ≫= float_iadd total, w).
Proof.
  intros Hp Ht Hpr Hpost.
  pose proof (price_table_last_wins _ _ _ _ _ _ Hp Ht Hpr Hpost) as Hg.
  split.
  - unfold table_getitem. simpl. by rewrite Hg.
  - intros fields total w Hf. by eapply add_sale_known.
Qed.

Lemma last_duplicate_title_wins_witness :
  table_getitem (JStr "Widget")
    [(JStr "Widget", JInt 2)] = Ok (JInt 2) ∧
  add_sale [(JStr "Widget", JInt 2)] 0%float (JObj widget_sale) blank_world
    = (Ok 6%float, blank_world).
Proof.
  destruct (last_duplicate_title_wins
              [JObj [("title", JStr "Widget"); ("price", JInt 1)]]
              (JObj [("title", JStr "Widget"); ("price", JInt 2)])
              [] "Widget" (JInt 2) [(JStr "Widget", JInt 2)])
    as [Hget Hsale].
  - reflexivity.
  - reflexivity.
  - reflexivity.
  - intros e He. by apply elem_of_nil in He.
  - split; [exact Hget|].
    rewrite (Hsale widget_sale 0%float blank_world eq_refl).
    vm_compute. reflexivity.
Defined.

(** ** The derived and the cached catalogue *)

Lemma projects_titles items entries :
  Forall2 projects items entries → titles_of entries = titles_of items.
Proof.
  induction 1 as [|item entry items entries
                   (fields & title & price & -> & Ht & _ & ->) _ IH];
    [done|].
  unfold titles_of in *. cbn. rewrite Ht. cbn. f_equal. exact IH.
Qed.

Lemma derive_well_formed product_list_file catalogue_file items w :
  files w !! catalogue_file = None →
  files w !! product_list_file = Some (JsonDoc (JArr items)) →
  items ≠ [] →
  forallb has_title_and_price items = true →
  ∃ entries,
    Forall2 projects items entries ∧
    generate_price_catalogue product_list_file catalogue_file w
    = (Ok (JArr entries),
       World (<[catalogue_file := JsonDoc (JArr entries)]> (files w))
             (stdout w ++ [Loading product_list_file;
                           Loaded product_list_file (length items);
                           Generated catalogue_file (length entries)])).
Proof.
  intros Hc Hp Hne [entries Hm]%mapM_catalogue_entry_wf.
  exists entries. split; [|by apply generate_cold_derives].
  apply mapM_outcome_Ok in Hm.
  eapply Forall2_impl; [exact Hm|]. intros item entry. apply catalogue_entry_Ok.
Qed.

(** C3. With no cache file, and a product list file holding a non-empty
    array of objects that each have "title" and "price",
    [generate_price_catalogue] returns an array with one entry per product, in
    the order of the product list, each entry being exactly
    [{"title": ..., "price": ...}] with that product's title and price. *)
Theorem derived_catalogue_projects product_list_file catalogue_file items w :
  files w !! catalogue_file = None →
  files w !! product_list_file = Some (JsonDoc (JArr items)) →
  items ≠ [] →
  forallb has_title_and_price items = true →
  ∃ entries w',
    generate_price_catalogue product_list_file catalogue_file w
      = (Ok (JArr entries), w') ∧
    length entries = length items ∧
    Forall2 projects items entries.
Proof.
  intros Hc Hp Hne Hwf.
  destruct (derive_well_formed _ _ _ _ Hc Hp Hne Hwf) as (entries & HF & Hrun).
  eexists entries, _. split; [exact Hrun|]. split; [|done].
  symmetry. by eapply Forall2_length.
Qed.

Lemma derived_catalogue_projects_witness :
  ∃ entries w',
    generate_price_catalogue "products.json" default_catalogue_file cold_world
      = (Ok (JArr entries), w') ∧
    length entries = 1 ∧
    Forall2 projects
      [JObj [("id", JInt 1); ("title", JStr "Widget"); ("price", JFloat 9.99)]]
      entries.
Proof.
  apply (derived_catalogue_projects "products.json" default_catalogue_file
           [JObj [("id", JInt 1); ("title", JStr "Widget");
                  ("price", JFloat 9.99)]] cold_world).
  - vm_compute. reflexivity.
  - vm_compute. reflexivity.
  - discriminate.
  - reflexivity.
Defined.

(** C4, as stated, fails: a cache file holding the number 42 exists, and the
    call raises [TypeError] instead of returning 42. *)
Lemma scalar_cache_not_returned :
  files scalar_cache_world !! default_catalogue_file = Some (JsonDoc (JInt 42)) ∧
  generate_price_catalogue "products.json" default_catalogue_file
    scalar_cache_world
  = (Raise TypeError,
     World (files scalar_cache_world) [Loading default_catalogue_file]).
Proof. split; vm_compute; reflexivity. Qed.

(** C4, amended. Whenever a file exists at the cache path,
    [generate_price_catalogue] does what loading that file does and nothing
    else: it writes no file, prints only lines about the cache file, and the
    product list path plays no part, so that any other path, holding anything
    or nothing, gives the same run.  If the cache holds a JSON array, object
    or string, that document is returned as it is, whatever its elements; if
    it holds text that is not JSON, the empty list is returned; if it holds a
    bare number, boolean or null, the call raises [TypeError]. *)
Theorem cached_catalogue_returned_verbatim
    product_list_file catalogue_file cached w :
  files w !! catalogue_file = Some cached →
  generate_price_catalogue product_list_file catalogue_file w
    = warm_result catalogue_file cached w ∧
  ∀ other_file,
    generate_price_catalogue other_file catalogue_file w
      = generate_price_catalogue product_list_file catalogue_file w.
Proof.
  intros Hc. split.
  - rewrite generate_warm by (by rewrite Hc). unfold warm_result, doc_len.
    destruct cached as [data| |l t].
    + destruct (py_len data) as [n|e|s] eqn:Hn.
      * erewrite load_json_file_doc by done. by destruct data.
      * erewrite load_json_file_no_len by done.
        destruct data; simpl in Hn; try discriminate; by injection Hn as <-.
      * by apply py_len_Exit in Hn.
    + apply load_json_file_unreadable. by rewrite Hc.
    + apply load_json_file_unreadable. by rewrite Hc.
  - intros other_file. by rewrite !generate_warm by (by rewrite Hc).
Qed.

Lemma cached_catalogue_returned_verbatim_witness :
  generate_price_catalogue "missing.json" default_catalogue_file warm_world
    = (Ok widget_catalogue,
       World (files warm_world)
             [Loading default_catalogue_file; Loaded default_catalogue_file 1]) ∧
  generate_price_catalogue "products.json" default_catalogue_file
    broken_cache_world
    = (Ok (JArr []),
       World (files broken_cache_world)
             [Loading default_catalogue_file;
              LoadError default_catalogue_file]) ∧
  generate_price_catalogue "products.json" default_catalogue_file
    scalar_cache_world
    = (Raise TypeError,
       World (files scalar_cache_world) [Loading default_catalogue_file]).
Proof.
  split; [|split].
  - apply (proj1 (cached_catalogue_returned_verbatim "missing.json"
                    default_catalogue_file (JsonDoc widget_catalogue)
                    warm_world eq_refl)).
  - apply (proj1 (cached_catalogue_returned_verbatim "products.json"
                    default_catalogue_file NotJson broken_cache_world eq_refl)).
  - apply (proj1 (cached_catalogue_returned_verbatim "products.json"
                    default_catalogue_file (JsonDoc (JInt 42))
                    scalar_cache_world eq_refl)).
Defined.

(** C6, as stated, fails: a product list with the same title twice gives a
    catalogue with the same title twice. *)
Lemma duplicate_titles_survive :
  (generate_price_catalogue "products.json" default_catalogue_file
     duplicate_world).1
    = Ok (JArr duplicate_entries) ∧
  ¬ NoDup (titles_of duplicate_entries).
Proof.
  split; [vm_compute; reflexivity|].
  change (titles_of duplicate_entries) with [JStr "Widget"; JStr "Widget"].
  intros Hnd. apply NoDup_cons in Hnd as [Hnotin _]. apply Hnotin. by left.
Qed.

(** C6, amended. With no cache file, and a product list file holding a
    non-empty array of objects that each have a title and a price, the derived
    catalogue carries the titles of the product list, in the same order and as
    often: its titles are pairwise distinct exactly when those of the product
    list are. *)
Theorem catalogue_titles_follow_products
    product_list_file catalogue_file items w :
  files w !! catalogue_file = None →
  files w !! product_list_file = Some (JsonDoc (JArr items)) →
  items ≠ [] →
  forallb has_title_and_price items = true →
  ∃ entries w',
    generate_price_catalogue product_list_file catalogue_file w
      = (Ok (JArr entries), w') ∧
    titles_of entries = titles_of items ∧
    (NoDup (titles_of entries) ↔ NoDup (titles_of items)).
Proof.
  intros Hc Hp Hne Hwf.
  destruct (derive_well_formed _ _ _ _ Hc Hp Hne Hwf) as (entries & HF & Hrun).
  eexists entries, _. split; [exact Hrun|].
  apply projects_titles in HF. by rewrite HF.
Qed.

Lemma catalogue_titles_follow_products_witness :
  ∃ entries w',
    generate_price_catalogue "products.json" default_catalogue_file mixed_world
      = (Ok (JArr entries), w') ∧
    titles_of entries = [JStr "Widget"; JStr "Gadget"; JStr "Widget"] ∧
    (NoDup (titles_of entries)
     ↔ NoDup [JStr "Widget"; JStr "Gadget"; JStr "Widget"]).
Proof.
  apply (catalogue_titles_follow_products "products.json"
           default_catalogue_file mixed_items mixed_world).
  - vm_compute. reflexivity.
  - vm_compute. reflexivity.
  - discriminate.
  - reflexivity.
Defined.

(** C8, as stated, fails: with no cache and no product list file, nothing is
    written. *)
Lemma cold_path_without_write :
  files blank_world !! default_catalogue_file = None ∧
  generate_price_catalogue "missing.json" default_catalogue_file blank_world
    = (Ok (JArr []),
       World (files blank_world)
             [Loading "missing.json"; LoadError "missing.json";
              ProductListError]).
Proof. split; vm_compute; reflexivity. Qed.

(** C8, amended. [generate_price_catalogue] changes the file system if and
    only if no file exists at the cache path and the product list file holds
    a non-empty array of objects that each have "title" and "price"; it then
    writes the catalogue it returns to the cache path and touches no other
    file.  In particular it writes nothing when the cache exists. *)
Theorem cache_written_iff product_list_file catalogue_file w :
  let out := generate_price_catalogue product_list_file catalogue_file w in
  (files out.2 ≠ files w ↔
   files w !! catalogue_file = None ∧
   well_formed_products (files w !! product_list_file) = true) ∧
  (files out.2 ≠ files w →
   ∃ entries,
     out.1 = Ok (JArr entries) ∧
     files out.2 = <[catalogue_file := JsonDoc (JArr entries)]> (files w)) ∧
  (is_Some (files w !! catalogue_file) → files out.2 = files w).
Proof.
  simpl.
  destruct (generate_cases product_list_file catalogue_file w)
    as [[[c Hc] ->]|[(Hc & Hwf & items & entries & _ & _ & ->)
                    |(Hc & Hwf & o & evs & -> & _ & _)]].
  - rewrite load_json_file_files. split; [|split]; try done.
    split; [done|]. intros [Hn _]. congruence.
  - simpl. assert (Hne : <[catalogue_file:=JsonDoc (JArr entries)]> (files w)
                         ≠ files w).
    { intros Heq. apply (f_equal (λ m, m !! catalogue_file)) in Heq.
      rewrite lookup_insert_eq in Heq. congruence. }
    split; [|split].
    + split; [done|]. intros _. exact Hne.
    + intros _. by exists entries.
    + intros [c Hc']. congruence.
  - simpl. split; [|split]; try done.
    split; [done|]. intros [_ Hwf']. congruence.
Qed.

Lemma cache_written_iff_witness :
  files (generate_price_catalogue "products.json" default_catalogue_file
           cold_world).2 ≠ files cold_world ∧
  files (generate_price_catalogue "products.json" default_catalogue_file
           warm_world).2 = files warm_world.
Proof.
  split.
  - apply (proj1 (cache_written_iff "products.json" default_catalogue_file
                    cold_world)).
    split; vm_compute; reflexivity.
  - apply (proj2 (proj2 (cache_written_iff "products.json"
                           default_catalogue_file warm_world))).
    vm_compute. eexists. reflexivity.
Defined.

(** ** Fatal conditions *)

(** C7, as stated, fails: on a run without cache whose sales file is missing,
    the program has written the catalogue cache, and printed five progress
    lines, before it prints the diagnostic and exits with status 1. *)
Lemma abort_after_cache_write :
  fatal ["compute_sales.py"; "products.json"; "missing.json"] cold_world ∧
  files cold_world !! default_catalogue_file = None ∧
  main ["compute_sales.py"; "products.json"; "missing.json"] 0%float cold_world
    = (Exit 1,
       World (<[default_catalogue_file := JsonDoc widget_catalogue]>
                (files cold_world))
             [Loading "products.json"; Loaded "products.json" 1;
              Generated default_catalogue_file 1;
              Loading "missing.json"; LoadError "missing.json";
              SalesFileError "missing.json"]).
Proof.
  split; [|split; vm_compute; reflexivity].
  right. right. split; [simpl; lia|].
  eexists _, _. split; [vm_compute; reflexivity|].
  split; vm_compute; reflexivity.
Qed.

(** C7, amended. The fatal conditions are: fewer than two command
    arguments; at least two arguments and no catalogue (the cache exists but
    is not JSON or is empty, or there is no cache and the product list file
    is missing, not JSON or empty); at least two arguments, a catalogue step
    that returns a non-empty catalogue, and sales files that all load (each is
    missing, not JSON, or holds a JSON array, object or string) of which at
    least one is missing, not JSON or empty.  On each of them the program
    exits with status 1 and the last line it prints is the diagnostic of that
    condition: the usage line, the catalogue error, or the sales file error
    naming a bad sales file.  Before it come only loading and derivation
    lines, never the results; the results file is left as it was; with too
    few arguments or no catalogue no file is written at all, and with a bad
    sales file the only file that may have been written is the catalogue
    cache, on a run that started without one. *)
Theorem fatal_aborts argv execution_time w :
  fatal argv w →
  ∃ w' evs d,
    main argv execution_time w = (Exit 1, w') ∧
    exit_status (main argv execution_time w).1 ≠ 0%Z ∧
    stdout w' = stdout w ++ evs ++ [d] ∧
    forallb progress evs = true ∧
    diagnostic d = true ∧
    files w' !! default_output_file = files w !! default_output_file ∧
    (files w' = files w ∨
     (files w !! default_catalogue_file = None ∧
      ∃ entries,
        files w' = <[default_catalogue_file := JsonDoc (JArr entries)]>
                     (files w))) ∧
    ((length argv < 3)%nat → d = Usage ∧ evs = [] ∧ files w' = files w) ∧
    ((3 ≤ length argv)%nat →
     catalogue_unusable w (nth 1 argv "") = true →
     d = CatalogueError ∧ files w' = files w) ∧
    ((3 ≤ length argv)%nat →
     catalogue_unusable w (nth 1 argv "") = false →
     ∃ f, d = SalesFileError f ∧ f ∈ drop 2 argv ∧
          unusable (files w' !! f) = true).
Proof.
  intros [Hlen|[[Hlen Hcat]|(Hlen & cat & w1 & Hgen & Hcat & Hsales)]].
  - eexists _, [], Usage. rewrite main_usage by done.
    split; [done|]. simpl. repeat split; try done; try (intros; lia).
    by left.
  - destruct (generate_unusable _ _ Hcat) as (cat & evs & Hgen & Hevs & Hfalsy).
    eexists _, evs, CatalogueError.
    erewrite main_no_catalogue by done.
    split; [done|]. simpl. split; [done|].
    split; [by rewrite <- app_assoc|].
    repeat split; try done; try (intros; lia); try (intros; congruence).
    by left.
  - destruct (generate_run (nth 1 argv "") default_catalogue_file w)
      as (o & fs & evs & Hrun & Hevs & Hfs).
    rewrite Hgen in Hrun. injection Hrun as <- ->.
    destruct (main_bad_sales argv execution_time _ _ _ Hlen Hgen Hcat Hsales)
      as (evs2 & f & Hin & Hbad & Hevs2 & Hmain).
    eexists _, (evs ++ evs2), (SalesFileError f). rewrite Hmain.
    split; [done|]. simpl. split; [done|].
    split; [by rewrite <- !app_assoc|].
    split; [by rewrite forallb_app, Hevs, Hevs2|].
    split; [done|].
    split; [|split; [|split; [intros; lia|split]]].
    + destruct Hfs as [->|(Hc & entries & ->)]; [done|].
      by rewrite lookup_insert_ne.
    + destruct Hfs as [->|(Hc & entries & ->)]; [by left|]. right. eauto.
    + intros _ Hno.
      destruct (generate_unusable _ _ Hno) as (cat' & evs' & Hgen' & _ & Hfalsy).
      rewrite Hgen in Hgen'. injection Hgen' as -> _. congruence.
    + intros _ _. by exists f.
Qed.

Lemma fatal_aborts_witness :
  (∃ w', main ["compute_sales.py"; "products.json"] 0%float cold_world
           = (Exit 1, w') ∧
         stdout w' = [Usage] ∧ files w' = files cold_world) ∧
  (∃ w' evs, main ["compute_sales.py"; "products.json"; "sales.json"] 0%float
               broken_cache_world = (Exit 1, w') ∧
             stdout w' = evs ++ [CatalogueError] ∧
             files w' = files broken_cache_world) ∧
  (∃ w' evs f, main ["compute_sales.py"; "products.json"; "sales.json";
                     "missing.json"] 0%float cold_world = (Exit 1, w') ∧
               stdout w' = evs ++ [SalesFileError f] ∧
               unusable (files w' !! f) = true).
Proof.
  split; [|split].
  - destruct (fatal_aborts ["compute_sales.py"; "products.json"] 0%float
                cold_world)
      as (w' & evs & d & Hmain & _ & Hout & _ & _ & _ & _ & Hd & _ & _).
    { left. simpl. lia. }
    destruct Hd as (-> & -> & Hfiles); [simpl; lia|].
    exists w'. split; [exact Hmain|]. split; [exact Hout|exact Hfiles].
  - destruct (fatal_aborts
                ["compute_sales.py"; "products.json"; "sales.json"] 0%float
                broken_cache_world)
      as (w' & evs & d & Hmain & _ & Hout & _ & _ & _ & _ & _ & Hd & _).
    { right. left. split; [simpl; lia|reflexivity]. }
    destruct Hd as (-> & Hfiles); [simpl; lia|reflexivity|].
    exists w', evs. split; [exact Hmain|]. split; [exact Hout|exact Hfiles].
  - destruct (fatal_aborts
                ["compute_sales.py"; "products.json"; "sales.json";
                 "missing.json"] 0%float cold_world)
      as (w' & evs & d & Hmain & _ & Hout & _ & _ & _ & _ & _ & _ & Hd).
    { right. right. split; [simpl; lia|].
      exists widget_catalogue, derived_world.
      split; [vm_compute; reflexivity|]. split; vm_compute; reflexivity. }
    destruct Hd as (f & -> & _ & Hbad); [simpl; lia|reflexivity|].
    exists w', evs, f. split; [exact Hmain|]. split; [exact Hout|exact Hbad].
Defined.

(** * Further properties of the program *)

(** ** [load_json_file] *)

(** X1. [load_json_file] only reads: whatever the file holds and however the
    call ends, the file system is as before, and the console has grown by the
    line announcing the file followed by progress lines only. *)
Theorem load_json_file_only_reads filename w :
  files (load_json_file filename w).2 = files w ∧
  ∃ evs,
    stdout (load_json_file filename w).2 = stdout w ++ Loading filename :: evs ∧
    forallb progress evs = true.
Proof.
  destruct (files w !! filename) as [[v| |l t]|] eqn:Hf.
  2-4: rewrite load_json_file_unreadable by (by rewrite Hf);
       split; [done|]; by exists [LoadError filename].
  destruct (py_len v) as [n|e|s] eqn:Hn.
  - erewrite load_json_file_doc by done. split; [done|].
    by exists [Loaded filename n].
  - erewrite load_json_file_no_len by done. split; [done|]. by exists [].
  - by apply py_len_Exit in Hn.
Qed.

(** X2. The caller cannot tell a missing file from an empty one:
    [load_json_file] returns the empty list exactly when the file is missing,
    is not JSON, or holds the empty array. *)
Theorem load_json_file_empty_iff filename w :
  (load_json_file filename w).1 = Ok (JArr []) ↔
  match files w !! filename with
  | Some (JsonDoc v) => v = JArr []
  | _ => True
  end.
Proof.
  destruct (files w !! filename) as [[v| |l t]|] eqn:Hf.
  2-4: by rewrite load_json_file_unreadable by (by rewrite Hf).
  destruct (py_len v) as [n|e|s] eqn:Hn.
  - erewrite load_json_file_doc by done. simpl. split; congruence.
  - erewrite load_json_file_no_len by done. simpl.
    split; [done|]. intros ->. done.
  - by apply py_len_Exit in Hn.
Qed.

(** X3. A file that holds valid JSON without a length (a bare number, boolean
    or null) is not handled by the [except] clause: [load_json_file] raises
    [TypeError] after printing only the line announcing the file. *)
Theorem document_without_len_escapes filename v w :
  files w !! filename = Some (JsonDoc v) →
  has_no_len v = true →
  load_json_file filename w
    = (Raise TypeError, World (files w) (stdout w ++ [Loading filename])).
Proof.
  intros Hf Hv. eapply load_json_file_no_len; [done|]. by destruct v.
Qed.

Lemma document_without_len_escapes_witness :
  load_json_file default_catalogue_file scalar_cache_world
    = (Raise TypeError,
       World (files scalar_cache_world) [Loading default_catalogue_file]).
Proof.
  apply (document_without_len_escapes default_catalogue_file (JInt 42)
           scalar_cache_world).
  - vm_compute. reflexivity.
  - reflexivity.
Defined.

(** ** [generate_price_catalogue] *)

(** What [load_json_file] returns and prints depends on the files only. *)
Lemma load_json_file_console filename w out' :
  ∃ o evs,
    load_json_file filename w = (o, World (files w) (stdout w ++ evs)) ∧
    load_json_file filename (World (files w) out')
      = (o, World (files w) (out' ++ evs)).
Proof.
  destruct (files w !! filename) as [[v| |l t]|] eqn:Hf.
  2-4: eexists _, _; split;
       [apply load_json_file_unreadable; by rewrite Hf
       |apply (load_json_file_unreadable filename (World (files w) out'));
        simpl; by rewrite Hf].
  destruct (py_len v) as [n|e|s] eqn:Hn.
  - eexists _, _. split; [by eapply load_json_file_doc|].
    by apply (load_json_file_doc filename v n (World (files w) out')).
  - eexists _, _. split; [by eapply load_json_file_no_len|].
    by apply (load_json_file_no_len filename v e (World (files w) out')).
  - by apply py_len_Exit in Hn.
Qed.

(** X4. Calling [generate_price_catalogue] again gives the same catalogue: if
    a call returns [cat], the same call in the world it leaves returns [cat]
    too, and this second call writes nothing. *)
Theorem generate_twice product_list_file catalogue_file w cat w1 :
  generate_price_catalogue product_list_file catalogue_file w = (Ok cat, w1) →
  ∃ evs,
    generate_price_catalogue product_list_file catalogue_file w1
      = (Ok cat, World (files w1) (stdout w1 ++ evs)).
Proof.
  intros Hrun.
  destruct (generate_cases product_list_file catalogue_file w)
    as [[Hc Hgen]|[(Hc & _ & items & entries & _ & _ & Hgen)
                  |(Hc & Hwf & o & evs & Hgen & _ & Ho)]];
    rewrite Hrun in Hgen.
  - destruct (load_json_file_console catalogue_file w (stdout w1))
      as (o & evs & Hload & Hload').
    rewrite Hload in Hgen. injection Hgen as <- ->. simpl in *.
    exists evs. rewrite generate_warm by done. exact Hload'.
  - injection Hgen as -> ->. eexists.
    rewrite generate_warm by (simpl; by rewrite lookup_insert_eq).
    eapply load_json_file_doc; [simpl; apply lookup_insert_eq|reflexivity].
  - injection Hgen as <- ->. simpl.
    destruct Ho as [[Hu [= ->]]|[_ [e He]]]; [|done].
    destruct (generate_cases product_list_file catalogue_file
                (World (files w) (stdout w ++ evs)))
      as [[[c Hc'] _]|[(_ & Hwf' & _)|(_ & _ & o' & evs' & Hgen' & _ & Ho')]];
      simpl in *.
    + congruence.
    + congruence.
    + rewrite Hgen'. exists evs'.
      by destruct Ho' as [[_ ->]|[Hn _]]; [|congruence].
Qed.

Lemma generate_twice_witness :
  ∃ evs,
    generate_price_catalogue "products.json" default_catalogue_file
      derived_world
    = (Ok widget_catalogue,
       World (files derived_world) (stdout derived_world ++ evs)).
Proof.
  apply (generate_twice "products.json" default_catalogue_file cold_world
           widget_catalogue derived_world).
  vm_compute. reflexivity.
Defined.

(** X5. On the cold path, a product list with an entry that is not an object
    with "title" and "price" makes [generate_price_catalogue] raise once the
    list is loaded; no cache file is written, not even for the well-formed
    entries before it. *)
Theorem malformed_product_raises product_list_file catalogue_file items w :
  files w !! catalogue_file = None →
  files w !! product_list_file = Some (JsonDoc (JArr items)) →
  forallb has_title_and_price items = false →
  ∃ e,
    generate_price_catalogue product_list_file catalogue_file w
    = (Raise e,
       World (files w)
             (stdout w ++ [Loading product_list_file;
                           Loaded product_list_file (length items)])).
Proof.
  intros Hc Hp Hbad.
  destruct items as [|item items]; [done|].
  destruct (mapM catalogue_entry (item :: items)) as [entries|e|s] eqn:Hm.
  - assert (forallb has_title_and_price (item :: items) = true)
      by (apply mapM_catalogue_entry_wf; eauto).
    congruence.
  - exists e. rewrite generate_cold, bind_run by done.
    erewrite load_json_file_doc by done. cbn [py_truthy negb].
    rewrite bind_run. cbn [py_iter]. unfold lift at 1.
    rewrite bind_run. unfold lift at 1. by rewrite Hm.
  - by apply mapM_no_exit in Hm; [|apply catalogue_entry_no_exit].
Qed.

Lemma malformed_product_raises_witness :
  ∃ e,
    generate_price_catalogue "products.json" default_catalogue_file
      malformed_world
    = (Raise e,
       World (files malformed_world)
             (stdout malformed_world
                ++ [Loading "products.json"; Loaded "products.json" 2])).
Proof.
  apply (malformed_product_raises "products.json" default_catalogue_file
           malformed_items malformed_world).
  - vm_compute. reflexivity.
  - vm_compute. reflexivity.
  - reflexivity.
Defined.

(** ** The catalogue and the lookup built from it *)

Lemma projects_getitem item entry :
  projects item entry →
  py_getitem entry "title" = py_getitem item "title" ∧
  py_getitem entry "price" = py_getitem item "price".
Proof.
  intros (fields & title & price & -> & Ht & Hp & ->).
  unfold py_getitem. rewrite Ht, Hp. done.
Qed.

Lemma projects_price_table items entries t :
  Forall2 projects items entries →
  price_table entries t = price_table items t.
Proof.
  intros HF. revert t.
  induction HF as [|item entry items entries Hp _ IH]; intros t; [done|].
  simpl. destruct (projects_getitem _ _ Hp) as [-> ->].
  destruct (py_getitem item "title") as [title| |]; try done. simpl.
  destruct (py_getitem item "price") as [price| |]; try done. simpl.
  destruct (table_set title price t) as [t'| |]; try done. simpl. apply IH.
Qed.

(** X6. Dropping the other fields loses nothing the aggregator uses: against
    the catalogue derived from a product list, [compute_total_sales] does
    exactly what it does against the product list itself. *)
Theorem projection_preserves_totals items entries sales_data_list w :
  Forall2 projects items entries →
  compute_total_sales (JArr entries) sales_data_list w
    = compute_total_sales (JArr items) sales_data_list w.
Proof.
  intros HF. unfold compute_total_sales. rewrite !bind_run.
  unfold lift at 1 3. cbn [py_iter]. rewrite !bind_run.
  unfold lift at 1 2. by rewrite (projects_price_table _ _ _ HF).
Qed.

Lemma projection_preserves_totals_witness :
  compute_total_sales widget_catalogue [first_sales; second_sales] blank_world
    = compute_total_sales widget_products [first_sales; second_sales]
        blank_world.
Proof.
  apply (projection_preserves_totals
           [JObj [("id", JInt 1); ("title", JStr "Widget");
                  ("price", JFloat 9.99)]]
           [JObj [("title", JStr "Widget"); ("price", JFloat 9.99)]]).
  constructor; [|constructor].
  exists [("id", JInt 1); ("title", JStr "Widget"); ("price", JFloat 9.99)],
         (JStr "Widget"), (JFloat 9.99).
  repeat split; reflexivity.
Defined.

(** X7. The title-to-price lookup is a proper dictionary over the catalogue:
    its keys are pairwise different as dictionary keys, and each of them is
    the title of some catalogue entry. *)
Theorem lookup_invariant products prices :
  price_table products [] = Ok prices →
  keys_distinct prices ∧
  ∀ k, k ∈ prices.*1 →
       ∃ product, product ∈ products ∧ py_getitem product "title" = Ok k.
Proof.
  intros Hp. split.
  - by eapply price_table_distinct.
  - intros k Hk. destruct (price_table_keys _ _ _ _ Hp Hk) as [Hnil|?]; [|done].
    by apply elem_of_nil in Hnil.
Qed.

Lemma lookup_invariant_witness :
  keys_distinct [(JStr "Widget", JInt 2)] ∧
  ∀ k, k ∈ [(JStr "Widget", JInt 2)].*1 →
       ∃ product, product ∈ duplicate_entries ∧
                  py_getitem product "title" = Ok k.
Proof.
  apply (lookup_invariant duplicate_entries [(JStr "Widget", JInt 2)]).
  reflexivity.
Defined.

Lemma price_table_no_exit products t s : price_table products t ≠ Exit s.
Proof.
  revert t. induction products as [|p products IH]; intros t; simpl; [done|].
  destruct (py_getitem p "title") as [title| |s1] eqn:Ht; simpl; try done.
  2: { unfold py_getitem in Ht. destruct p; try done.
       by destruct (dict_get "title" fields). }
  destruct (py_getitem p "price") as [price| |s1] eqn:Hp; simpl; try done.
  2: { unfold py_getitem in Hp. destruct p; try done.
       by destruct (dict_get "price" fields). }
  unfold table_set. destruct (hashable title); simpl; [apply IH|done].
Qed.

Lemma price_table_ok_wf products t t' :
  price_table products t = Ok t' →
  forallb catalogue_entry_ok products = true.
Proof.
  revert t. induction products as [|p products IH]; intros t; [done|].
  cbn [price_table forallb]. unfold py_getitem, table_set, catalogue_entry_ok.
  destruct p as [| | | | | |fields]; try done.
  destruct (dict_get "title" fields) as [title|]; try done.
  destruct (dict_get "price" fields) as [price|]; try done. simpl.
  destruct (hashable title); try done. simpl. apply IH.
Qed.

(** X8. The lookup is built in full before any sale is read: a catalogue with
    an entry that lacks "title" or "price", or whose title cannot be hashed,
    makes [compute_total_sales] raise without printing anything, whatever the
    sales are and even if that entry is never sold. *)
Theorem malformed_catalogue_entry_aborts entries sales_data_list w :
  forallb catalogue_entry_ok entries = false →
  ∃ e, compute_total_sales (JArr entries) sales_data_list w = (Raise e, w).
Proof.
  intros Hbad. destruct (price_table entries []) as [prices|e|s] eqn:Hp.
  - apply price_table_ok_wf in Hp. congruence.
  - exists e. unfold compute_total_sales. rewrite !bind_run.
    unfold lift at 1. cbn [py_iter]. rewrite bind_run. unfold lift at 1.
    by rewrite Hp.
  - by apply price_table_no_exit in Hp.
Qed.

Lemma malformed_catalogue_entry_aborts_witness :
  ∃ e, compute_total_sales (JArr malformed_items) [first_sales] blank_world
       = (Raise e, blank_world).
Proof.
  apply (malformed_catalogue_entry_aborts malformed_items [first_sales]
           blank_world).
  reflexivity.
Defined.

(** ** [compute_total_sales] *)

Lemma prints_only_ret {A} P (a : A) : prints_only P (mret a : M A).
Proof. intros w. exists (Ok a), []. by rewrite app_nil_r; destruct w. Qed.

Lemma prints_only_lift {A} P (o : outcome A) : prints_only P (lift o).
Proof. intros w. exists o, []. by rewrite app_nil_r; destruct w. Qed.

Lemma prints_only_print (P : event → bool) e :
  P e = true → prints_only P (print e).
Proof. intros He w. exists (Ok ()), [e]. simpl. by rewrite He. Qed.

Lemma prints_only_bind {A B} P (m : M A) (f : A → M B) :
  prints_only P m → (∀ a, prints_only P (f a)) → prints_only P (m ≫= f).
Proof.
  intros Hm Hf w. destruct (Hm w) as (o & evs & Hrun & Hevs).
  rewrite bind_run, Hrun. destruct o as [a|e|s]; [|by eauto..].
  destruct (Hf a (World (files w) (stdout w ++ evs)))
    as (o' & evs' & Hrun' & Hevs').
  exists o', (evs ++ evs'). rewrite Hrun'. simpl.
  split; [by rewrite <- app_assoc|]. by rewrite forallb_app, Hevs, Hevs'.
Qed.

Lemma prints_only_for_each {A S} P (body : S → A → M S) l s :
  (∀ s x, prints_only P (body s x)) → prints_only P (for_each body l s).
Proof.
  intros Hb. revert s. induction l as [|x l IH]; intros s; simpl.
  - apply prints_only_ret.
  - apply prints_only_bind; [apply Hb|]. intros s'. apply IH.
Qed.

Lemma prints_only_add_sale prices total sale :
  prints_only is_warning (add_sale prices total sale).
Proof.
  unfold add_sale.
  apply prints_only_bind; [apply prints_only_lift|]; intros product_name.
  apply prints_only_bind; [apply prints_only_lift|]; intros quantity.
  apply prints_only_bind; [apply prints_only_lift|]; intros [|].
  - apply prints_only_bind; [apply prints_only_lift|]; intros price.
    apply prints_only_bind; [apply prints_only_lift|]; intros amount.
    apply prints_only_lift.
  - apply prints_only_bind; [by apply prints_only_print|]. intros _.
    apply prints_only_ret.
Qed.

Lemma prints_only_compute product_catalogue sales_data_list :
  prints_only is_warning
    (compute_total_sales product_catalogue sales_data_list).
Proof.
  unfold compute_total_sales.
  apply prints_only_bind; [apply prints_only_lift|]; intros products.
  apply prints_only_bind; [apply prints_only_lift|]; intros prices.
  apply prints_only_bind.
  - apply prints_only_for_each. intros [[per_file combined] idx] sales_data.
    unfold add_file.
    apply prints_only_bind; [apply prints_only_lift|]; intros sales.
    apply prints_only_bind.
    + apply prints_only_for_each. intros. apply prints_only_add_sale.
    + intros total. apply prints_only_ret.
  - intros [[per_file combined] idx]. apply prints_only_ret.
Qed.

(** X9. [compute_total_sales] reads and writes no file and prints nothing
    but warnings, on every input and however it ends. *)
Theorem compute_total_sales_only_warns product_catalogue sales_data_list w :
  let out := compute_total_sales product_catalogue sales_data_list w in
  files out.2 = files w ∧
  ∃ evs, stdout out.2 = stdout w ++ evs ∧ forallb is_warning evs = true.
Proof.
  simpl.
  destruct (prints_only_compute product_catalogue sales_data_list w)
    as (o & evs & -> & Hevs).
  split; [done|]. by exists evs.
Qed.

Lemma add_file_file_total prices per_file combined idx sales_data w :
  add_file prices (per_file, combined, idx) sales_data w =
  match file_total prices sales_data w with
  | (Ok total, w') =>
      (Ok (dict_set (sales_file_label idx) total per_file,
           (combined + total)%float, S idx), w')
  | (Raise e, w') => (Raise e, w')
  | (Exit s, w') => (Exit s, w')
  end.
Proof.
  unfold add_file, file_total. rewrite !bind_run. unfold lift.
  destruct (py_iter sales_data) as [sales| |]; reflexivity.
Qed.

Lemma world_blind_file_total prices sales_data :
  world_blind (file_total prices sales_data).
Proof.
  unfold file_total. apply world_blind_bind; [apply world_blind_lift|].
  intros sales. apply world_blind_for_each. intros. apply world_blind_add_sale.
Qed.

Lemma add_file_total prices totals sales_data st w w' :
  add_file prices (totals_so_far totals) sales_data w = (Ok st, w') →
  ∃ total, (file_total prices sales_data w).1 = Ok total ∧
           st = totals_so_far (totals ++ [total]).
Proof.
  unfold totals_so_far. rewrite add_file_file_total.
  destruct (file_total prices sales_data w) as [[total| |] w1]; try done.
  intros [= <- _]. exists total. split; [done|].
  rewrite length_app, Nat.add_1_r, sales_file_labels_S, fold_left_app. simpl.
  rewrite zip_with_app
    by (unfold sales_file_labels; by rewrite length_fmap, length_seq).
  rewrite dict_set_fresh; [done|].
  rewrite fst_zip; [apply sales_file_label_fresh|].
  unfold sales_file_labels. by rewrite length_fmap, length_seq.
Qed.

Lemma add_files_each prices sales_data_list totals st w w' :
  for_each (add_file prices) sales_data_list (totals_so_far totals) w
    = (Ok st, w') →
  ∃ more,
    st = totals_so_far (totals ++ more) ∧
    Forall2 (λ x total, ∀ u, (file_total prices x u).1 = Ok total)
      sales_data_list more.
Proof.
  revert totals w. induction sales_data_list as [|x l IH]; intros totals w; simpl.
  - intros [-> _]%ret_Ok_inv. exists []. by rewrite app_nil_r.
  - intros (st1 & w1 & Hx & Hl)%bind_Ok_inv.
    apply add_file_total in Hx as (total & Ht & ->).
    apply IH in Hl as (more & -> & HF).
    exists (total :: more). split; [by rewrite <- app_assoc|].
    constructor; [|done]. intros u.
    by rewrite (world_blind_file_total prices x u w).
Qed.

Lemma dict_get_zip_labels a (totals : list float) i total rest :
  totals !! i = Some total →
  dict_get (sales_file_label (a + i))
    (zip (sales_file_label <$> seq a (length totals)) totals ++ rest)
  = Some total.
Proof.
  revert a i. induction totals as [|t0 totals IH]; intros a i; [done|].
  unfold dict_get in *.
  change (zip (sales_file_label <$> seq a (length (t0 :: totals)))
            (t0 :: totals) ++ rest)
    with ((sales_file_label a, t0)
            :: (zip (sales_file_label <$> seq (S a) (length totals)) totals
                  ++ rest)).
  cbn [assoc_get]. destruct i as [|i].
  - intros [= ->]. by rewrite Nat.add_0_r, String.eqb_refl.
  - intros Hi.
    destruct (String.eqb_spec (sales_file_label a) (sales_file_label (a + S i)))
      as [Heq|_].
    + apply sales_file_label_inj in Heq. lia.
    + replace (a + S i) with (S a + i) by lia. by apply IH.
Qed.

Lemma sales_file_label_1 : sales_file_label 1 = "Sales File 1".
Proof. vm_compute. reflexivity. Qed.

(** X10. Sales files do not influence one another: in the mapping returned
    for a list of files, the entry of the file at position [i] is the total
    [compute_total_sales] gives that file when it is the only one. *)
Theorem file_totals_independent
    product_catalogue sales_data_list w r w' i sales_data :
  compute_total_sales product_catalogue sales_data_list w = (Ok r, w') →
  sales_data_list !! i = Some sales_data →
  ∃ total,
    dict_get (sales_file_label (S i)) r = Some total ∧
    ∀ u, (compute_total_sales product_catalogue [sales_data] u).1
         = Ok [("Sales File 1", total);
               ("Total Combined Sales", (0 + total)%float)].
Proof.
  unfold compute_total_sales. intros H Hi.
  apply bind_Ok_inv in H as (products & w1 & [Hc ->]%lift_Ok_inv & H).
  apply bind_Ok_inv in H as (prices & w2 & [Hp ->]%lift_Ok_inv & H).
  apply bind_Ok_inv in H as ([[per_file combined] idx] & w3 & Hloop & H).
  apply ret_Ok_inv in H as [-> _].
  apply (add_files_each _ _ []) in Hloop as (more & Hst & HF).
  simpl in Hst. injection Hst as -> -> _.
  destruct (Forall2_lookup_l _ _ _ _ _ HF Hi) as (total & Hm & Ht).
  exists total. split.
  - rewrite dict_set_fresh.
    + apply (dict_get_zip_labels 1). done.
    + rewrite fst_zip; [apply combined_label_fresh|].
      unfold sales_file_labels. by rewrite length_fmap, length_seq.
  - intros u. rewrite !bind_run. unfold lift at 1. rewrite Hc.
    rewrite bind_run. unfold lift at 1. rewrite Hp.
    rewrite bind_run. cbn [for_each]. rewrite bind_run.
    rewrite add_file_file_total. specialize (Ht u).
    destruct (file_total prices sales_data u) as [o u1]. simpl in Ht. subst o.
    cbn. by rewrite sales_file_label_1.
Qed.

Lemma file_totals_independent_witness :
  ∃ total,
    dict_get (sales_file_label 2) widget_totals = Some total ∧
    ∀ u, (compute_total_sales widget_catalogue [second_sales] u).1
         = Ok [("Sales File 1", total);
               ("Total Combined Sales", (0 + total)%float)].
Proof.
  apply (file_totals_independent widget_catalogue [first_sales; second_sales]
           blank_world widget_totals (World ∅ [Warning (JStr "Gadget")])
           1 second_sales).
  - vm_compute. reflexivity.
  - reflexivity.
Defined.

Lemma unknown_records_loop prices records total w :
  (∀ fields, fields ∈ records →
     hashable (product_name_of fields) = true ∧
     assoc_mem key_eqb (product_name_of fields) prices = false) →
  for_each (add_sale prices) (JObj <$> records) total w
  = (Ok total,
     World (files w)
       (stdout w ++ ((λ fields, Warning (product_name_of fields)) <$> records))).
Proof.
  revert w. induction records as [|fields records IH]; intros w Hall.
  - cbn. by rewrite app_nil_r; destruct w.
  - destruct (Hall fields) as [Hh Hm]; [by left|].
    rewrite fmap_cons. cbn [for_each]. rewrite bind_run.
    rewrite add_sale_unknown by done.
    rewrite IH by (intros; apply Hall; by right).
    cbn. by rewrite <- app_assoc.
Qed.

(** X11. A sales file in which no record names a catalogued product (the
    empty file included) gets the total [0.0], and so does the combined
    entry; the console receives one warning per record, in the order of the
    records. *)
Theorem unknown_only_file_totals_zero product_catalogue products prices
    records w :
  py_iter product_catalogue = Ok products →
  price_table products [] = Ok prices →
  (∀ fields, fields ∈ records →
     hashable (product_name_of fields) = true ∧
     ∀ product title,
       product ∈ products → py_getitem product "title" = Ok title →
       key_eqb title (product_name_of fields) = false) →
  compute_total_sales product_catalogue [JArr (JObj <$> records)] w
  = (Ok [("Sales File 1", 0%float); ("Total Combined Sales", 0%float)],
     World (files w)
       (stdout w ++ ((λ fields, Warning (product_name_of fields)) <$> records))).
Proof.
  intros Hc Hp Hall. unfold compute_total_sales.
  rewrite bind_run. unfold lift at 1. rewrite Hc.
  rewrite bind_run. unfold lift at 1. rewrite Hp.
  rewrite bind_run. cbn [for_each]. rewrite bind_run.
  unfold add_file. rewrite bind_run. unfold lift at 1. cbn [py_iter].
  rewrite bind_run, unknown_records_loop.
  - cbn. by rewrite sales_file_label_1.
  - intros fields Hin. destruct (Hall fields Hin) as [Hh Habs].
    split; [done|]. apply assoc_mem_false. intros k Hk.
    destruct (price_table_keys _ _ _ _ Hp Hk) as [Hnil|(product & Hpin & Ht)].
    + by apply elem_of_nil in Hnil.
    + by eapply Habs.
Qed.

Lemma unknown_only_file_totals_zero_witness :
  compute_total_sales widget_catalogue
    [JArr (JObj <$> [gadget_sale; [("Quantity", JInt 2)]])] blank_world
  = (Ok [("Sales File 1", 0%float); ("Total Combined Sales", 0%float)],
     World ∅ [Warning (JStr "Gadget"); Warning JNull]).
Proof.
  apply (unknown_only_file_totals_zero widget_catalogue
           [JObj [("title", JStr "Widget"); ("price", JFloat 9.99)]]
           [(JStr "Widget", JFloat 9.99)]
           [gadget_sale; [("Quantity", JInt 2)]] blank_world).
  - reflexivity.
  - reflexivity.
  - intros fields Hin. split.
    + apply elem_of_cons in Hin as [->|Hin]; [reflexivity|].
      apply list_elem_of_singleton in Hin as ->. reflexivity.
    + intros product title Hp%list_elem_of_singleton Ht. subst product.
      injection Ht as <-.
      apply elem_of_cons in Hin as [->|Hin]; [reflexivity|].
      apply list_elem_of_singleton in Hin as ->. reflexivity.
Defined.





(** A repetition count outside the index range is refused before anything
    is added. *)
Example repetition_count_out_of_range :
  add_sale [(JStr "Widget", JStr "ab")] 0%float
    (JObj [("Product", JStr "Widget"); ("Quantity", JInt (- 2 ^ 64))])
    blank_world
  = (Raise OverflowError, blank_world).
Proof. vm_compute. reflexivity. Qed.

(** ** [main] *)

(** [main] with enough arguments, step by step. *)
Lemma main_run argv execution_time w :
  (3 ≤ length argv)%nat →
  main argv execution_time w =
  match generate_price_catalogue (nth 1 argv "") default_catalogue_file w with
  | (Ok cat, w1) =>
      if py_truthy cat then
        match mapM load_json_file (drop 2 argv) w1 with
        | (Ok docs, w2) =>
            match check_sales (drop 2 argv) docs w2 with
            | (Ok _, w3) =>
                match compute_total_sales cat docs w3 with
                | (Ok r, w4) =>
                    save_results r execution_time default_output_file w4
                | (Raise e, w4) => (Raise e, w4)
                | (Exit s, w4) => (Exit s, w4)
                end
            | (Raise e, w3) => (Raise e, w3)
            | (Exit s, w3) => (Exit s, w3)
            end
        | (Raise e, w2) => (Raise e, w2)
        | (Exit s, w2) => (Exit s, w2)
        end
      else (Exit 1, World (files w1) (stdout w1 ++ [CatalogueError]))
  | (Raise e, w1) => (Raise e, w1)
  | (Exit s, w1) => (Exit s, w1)
  end.
Proof.
  intros Hlen. unfold main.
  destruct (Nat.ltb_spec (length argv) 3) as [?|_]; [lia|].
  rewrite bind_run.
  destruct (generate_price_catalogue _ _ w) as [[cat|e|s] w1]; try reflexivity.
  destruct (py_truthy cat); [|reflexivity]. cbn [negb]. rewrite bind_run.
  destruct (mapM load_json_file (drop 2 argv) w1) as [[docs|e|s] w2];
    reflexivity.
Qed.

Lemma check_sales_run sales_files sales_data_list w :
  check_sales sales_files sales_data_list w = (Ok (), w) ∨
  ∃ f, f ∈ sales_files ∧
       check_sales sales_files sales_data_list w
         = (Exit 1, World (files w) (stdout w ++ [SalesFileError f])).
Proof.
  revert sales_data_list.
  induction sales_files as [|f fs IH]; intros [|v vs]; simpl; try by left.
  destruct (py_truthy v); simpl.
  - destruct (IH vs) as [?|(g & Hg & ?)]; [by left|].
    right. exists g. split; [by right|done].
  - right. exists f. split; [by left|done].
Qed.

Lemma forallb_weaken {A} (P Q : A → bool) l :
  (∀ x, P x = true → Q x = true) → forallb P l = true → forallb Q l = true.
Proof.
  intros HPQ. rewrite !forallb_forall. intros H x Hx. by apply HPQ, H.
Qed.

Lemma progress_not_result e : progress e = true → not_result e = true.
Proof. by destruct e. Qed.

Lemma warning_not_result e : is_warning e = true → not_result e = true.
Proof. by destruct e. Qed.

(** Every run of [main] with enough arguments either completes, having
    printed and written the results last, or ends otherwise without them;
    the only other file it may have written is the catalogue cache. *)
Lemma main_outcome argv execution_time w :
  (3 ≤ length argv)%nat →
  ∃ fs evs,
    forallb not_result evs = true ∧
    (fs = files w ∨
     (files w !! default_catalogue_file = None ∧
      ∃ entries,
        fs = <[default_catalogue_file := JsonDoc (JArr entries)]> (files w))) ∧
    ((∃ r, main argv execution_time w
           = (Ok (),
              World (<[default_output_file := Report r execution_time]> fs)
                    (stdout w ++ evs ++ [ResultText r execution_time]))) ∨
     (∃ o, o ≠ Ok () ∧
           main argv execution_time w = (o, World fs (stdout w ++ evs)))).
Proof.
  intros Hlen. rewrite main_run by done.
  destruct (generate_run (nth 1 argv "") default_catalogue_file w)
    as (o & fs & evs & -> & Hevs%(forallb_weaken _ not_result) & Hfs);
    [|apply progress_not_result].
  destruct o as [cat|e|s].
  2-3: exists fs, evs; split; [done|]; split; [done|]; right;
       eexists; split; [|reflexivity]; done.
  destruct (py_truthy cat).
  2: { exists fs, (evs ++ [CatalogueError]).
       split; [by rewrite forallb_app, Hevs|]. split; [done|]. right.
       eexists. split; [|simpl; by rewrite <- ?app_assoc]. done. }
  destruct (load_all_run (drop 2 argv) (World fs (stdout w ++ evs)))
    as (o2 & evs2 & -> & Hevs2%(forallb_weaken _ not_result) & _);
    [|apply progress_not_result].
  simpl. destruct o2 as [docs|e|s].
  2-3: exists fs, (evs ++ evs2); split; [by rewrite forallb_app, Hevs, Hevs2|];
       split; [done|]; right;
       eexists; split; [|simpl; by rewrite <- ?app_assoc]; done.
  destruct (check_sales_run (drop 2 argv) docs
              (World fs ((stdout w ++ evs) ++ evs2))) as [->|(f & _ & ->)].
  2: { exists fs, (evs ++ evs2 ++ [SalesFileError f]).
       split; [by rewrite !forallb_app, Hevs, Hevs2|]. split; [done|]. right.
       eexists. split; [|simpl; by rewrite <- ?app_assoc]. done. }
  destruct (prints_only_compute cat docs (World fs ((stdout w ++ evs) ++ evs2)))
    as (o3 & evs3 & -> & Hevs3%(forallb_weaken _ not_result));
    [|apply warning_not_result].
  simpl. exists fs, (evs ++ evs2 ++ evs3).
  split; [by rewrite !forallb_app, Hevs, Hevs2, Hevs3|]. split; [done|].
  destruct o3 as [r|e|s].
  - left. exists r. rewrite <- ?app_assoc. unfold save_results, print, write_file.
    rewrite bind_run. simpl. by rewrite <- ?app_assoc.
  - right. eexists. split; [|simpl; by rewrite <- ?app_assoc]. done.
  - right. eexists. split; [|simpl; by rewrite <- ?app_assoc]. done.
Qed.

Lemma not_result_forallb evs r t :
  forallb not_result evs = true → ResultText r t ∉ evs.
Proof.
  rewrite forallb_forall. intros H Hin%list_elem_of_In. by apply H in Hin.
Qed.

(** X13. The results are printed and written exactly when the run completes.
    A run that ends normally has, as its last console line, the results it
    has written to the results file, and no results line before it; a run
    that ends in any other way (usage error, fatal condition, uncaught
    exception) leaves the results file as it was and prints no results. *)
Theorem results_exactly_on_completion argv execution_time w :
  let out := main argv execution_time w in
  (out.1 = Ok () →
   ∃ r evs,
     files out.2 !! default_output_file = Some (Report r execution_time) ∧
     stdout out.2 = stdout w ++ evs ++ [ResultText r execution_time] ∧
     forallb not_result evs = true) ∧
  (out.1 ≠ Ok () →
   files out.2 !! default_output_file = files w !! default_output_file ∧
   ∃ evs, stdout out.2 = stdout w ++ evs ∧ forallb not_result evs = true).
Proof.
  simpl. destruct (Nat.lt_ge_cases (length argv) 3) as [Hlen|Hlen].
  { rewrite main_usage by done. simpl. split; [done|]. intros _.
    split; [done|]. by exists [Usage]. }
  destruct (main_outcome argv execution_time w Hlen)
    as (fs & evs & Hevs & Hfs & [[r ->]|(o & Ho & ->)]); simpl.
  - split; [|done]. intros _. exists r, evs.
    by rewrite lookup_insert_eq.
  - split; [done|]. intros _. split; [|by exists evs].
    destruct Hfs as [->|(_ & entries & ->)]; [done|].
    by rewrite lookup_insert_ne.
Qed.

Lemma results_exactly_on_completion_witness :
  files (main ["compute_sales.py"; "products.json"; "sales.json"] 0.25%float
           cold_world).2 !! default_output_file
    = Some (Report [("Sales File 1", 29.97%float);
                    ("Total Combined Sales", 29.97%float)] 0.25%float) ∧
  files (main ["compute_sales.py"; "products.json"; "missing.json"] 0.25%float
           cold_world).2 !! default_output_file
    = files cold_world !! default_output_file.
Proof.
  split.
  - destruct (proj1 (results_exactly_on_completion
                       ["compute_sales.py"; "products.json"; "sales.json"]
                       0.25%float cold_world))
      as (r & evs & Hfile & Hout & _); [vm_compute; reflexivity|].
    vm_compute. reflexivity.
  - apply (proj2 (results_exactly_on_completion
                    ["compute_sales.py"; "products.json"; "missing.json"]
                    0.25%float cold_world)).
    vm_compute. discriminate.
Defined.

Lemma world_blind_compute product_catalogue sales_data_list :
  world_blind (compute_total_sales product_catalogue sales_data_list).
Proof.
  unfold compute_total_sales.
  apply world_blind_bind; [apply world_blind_lift|]; intros products.
  apply world_blind_bind; [apply world_blind_lift|]; intros prices.
  apply world_blind_bind.
  - apply world_blind_for_each. intros. apply world_blind_add_file.
  - intros [[per_file combined] idx]. apply world_blind_ret.
Qed.

Lemma usable_doc v :
  usable (Some (JsonDoc v)) = true →
  py_truthy v = true ∧ ∃ n, py_len v = Ok n.
Proof.
  destruct v as [| | | |[|c s]|[|x l]|[|x l]]; try done; simpl; eauto.
Qed.

Lemma load_all_docs sales_files docs w :
  Forall2 (λ f v, files w !! f = Some (JsonDoc v) ∧
                  usable (Some (JsonDoc v)) = true) sales_files docs →
  ∃ evs,
    forallb progress evs = true ∧
    mapM load_json_file sales_files w
      = (Ok docs, World (files w) (stdout w ++ evs)).
Proof.
  revert docs w. induction sales_files as [|f fs IH]; intros docs w HF.
  - apply Forall2_nil_inv_l in HF as ->. exists [].
    split; [done|]. by rewrite app_nil_r; destruct w.
  - apply Forall2_cons_inv_l in HF as (v & vs & [Hf Hu] & HF & ->).
    destruct (usable_doc v Hu) as [_ [n Hn]].
    destruct (IH vs (World (files w)
                       (stdout w ++ [Loading f; Loaded f n])) HF)
      as (evs & Hevs & Hrun).
    exists ([Loading f; Loaded f n] ++ evs). split; [done|].
    cbn [mapM]. rewrite bind_run, (load_json_file_doc f v n) by done.
    rewrite bind_run, Hrun. cbn. by rewrite <- app_assoc.
Qed.

Lemma check_sales_passes sales_files docs w :
  Forall (λ v, py_truthy v = true) docs →
  check_sales sales_files docs w = (Ok (), w).
Proof.
  revert docs. induction sales_files as [|f fs IH]; intros [|v vs] Hall;
    try reflexivity.
  apply Forall_cons in Hall as [Hv Hvs]. simpl. rewrite Hv. simpl. by apply IH.
Qed.

(** X14. A complete run.  With at least two arguments, a catalogue step that
    returns a non-empty catalogue, sales files that each hold a non-empty
    JSON document, and an aggregation of those documents (in argument order)
    that returns [r], [main] ends normally: it writes [r] with the elapsed
    time to the results file, prints the same as its last console line, and
    leaves every other file as the catalogue step left it. *)
Theorem main_completes argv execution_time w cat w1 docs r :
  (3 ≤ length argv)%nat →
  generate_price_catalogue (nth 1 argv "") default_catalogue_file w
    = (Ok cat, w1) →
  py_truthy cat = true →
  Forall2 (λ f v, files w1 !! f = Some (JsonDoc v) ∧
                  usable (Some (JsonDoc v)) = true) (drop 2 argv) docs →
  (compute_total_sales cat docs w1).1 = Ok r →
  ∃ evs,
    forallb not_result evs = true ∧
    main argv execution_time w
    = (Ok (),
       World (<[default_output_file := Report r execution_time]> (files w1))
             (stdout w1 ++ evs ++ [ResultText r execution_time])).
Proof.
  intros Hlen Hgen Hcat HF Hr. rewrite main_run, Hgen, Hcat by done.
  destruct (load_all_docs _ _ _ HF)
    as (evs2 & Hevs2%(forallb_weaken _ not_result) & ->);
    [|apply progress_not_result].
  rewrite check_sales_passes.
  2: { eapply Forall2_Forall_r; [exact HF|].
       apply Forall_forall. intros f _ v [_ Hu]. by apply usable_doc in Hu as []. }
  destruct (prints_only_compute cat docs
              (World (files w1) (stdout w1 ++ evs2)))
    as (o & evs3 & Hrun & Hevs3%(forallb_weaken _ not_result));
    [|apply warning_not_result].
  rewrite Hrun.
  assert (o = Ok r) as ->.
  { rewrite <- Hr.
    rewrite (world_blind_compute cat docs w1
               (World (files w1) (stdout w1 ++ evs2))).
    by rewrite Hrun. }
  exists (evs2 ++ evs3). split; [by rewrite forallb_app, Hevs2, Hevs3|].
  unfold save_results, print, write_file. rewrite bind_run. simpl.
  by rewrite <- !app_assoc.
Qed.

Lemma main_completes_witness :
  ∃ evs,
    forallb not_result evs = true ∧
    main ["compute_sales.py"; "products.json"; "sales.json"] 0.25%float
      cold_world
    = (Ok (),
       World (<[default_output_file :=
                  Report [("Sales File 1", 29.97%float);
                          ("Total Combined Sales", 29.97%float)] 0.25%float]>
                (files derived_world))
             (stdout derived_world ++ evs
                ++ [ResultText [("Sales File 1", 29.97%float);
                                ("Total Combined Sales", 29.97%float)]
                      0.25%float])).
Proof.
  apply (main_completes ["compute_sales.py"; "products.json"; "sales.json"]
           0.25%float cold_world widget_catalogue derived_world [first_sales]).
  - simpl. lia.
  - vm_compute. reflexivity.
  - reflexivity.
  - constructor; [|constructor]. split; [vm_compute; reflexivity|reflexivity].
  - vm_compute. reflexivity.
Defined.

Lemma load_json_file_announces filename w :
  ∃ o evs,
    load_json_file filename w
      = (o, World (files w) (stdout w ++ Loading filename :: evs)).
Proof.
  destruct (files w !! filename) as [[v| |l t]|] eqn:Hf.
  2-4: eexists _, _; apply load_json_file_unreadable; by rewrite Hf.
  destruct (py_len v) as [n|e|s] eqn:Hn.
  - eexists _, _. by eapply load_json_file_doc.
  - eexists _, []. by eapply load_json_file_no_len.
  - by apply py_len_Exit in Hn.
Qed.

Lemma load_all_announces sales_files w docs w2 :
  mapM load_json_file sales_files w = (Ok docs, w2) →
  ∃ evs, w2 = World (files w) (stdout w ++ evs) ∧
         ∀ g, g ∈ sales_files → Loading g ∈ evs.
Proof.
  revert w docs w2. induction sales_files as [|f fs IH]; intros w docs w2.
  - intros [_ ->]%ret_Ok_inv. exists []. split.
    + by rewrite app_nil_r; destruct w.
    + intros g Hg. by apply elem_of_nil in Hg.
  - cbn [mapM]. intros (v & w1 & Hload & Hrest)%bind_Ok_inv.
    apply bind_Ok_inv in Hrest as (vs & w1' & Hall & [_ ->]%ret_Ok_inv).
    destruct (load_json_file_announces f w) as (o & evs1 & Hf).
    rewrite Hf in Hload. injection Hload as -> <-.
    apply IH in Hall as (evs2 & -> & Hin). simpl.
    exists (Loading f :: evs1 ++ evs2). split.
    + by rewrite <- app_assoc.
    + intros g [->|Hg]%elem_of_cons; [by left|].
      right. apply elem_of_app. right. by apply Hin.
Qed.

Lemma usable_not_unusable c : usable c = true → unusable c = false.
Proof.
  destruct c as [[[| | | |[|a s]|[|x l]|[|x l]]| |]|]; done.
Qed.

Lemma check_sales_first (fs : gmap string content) pre f post docs w :
  Forall2 (λ g v, negb (py_truthy v) = unusable (fs !! g))
    (pre ++ f :: post) docs →
  Forall (λ g, unusable (fs !! g) = false) pre →
  unusable (fs !! f) = true →
  check_sales (pre ++ f :: post) docs w
    = (Exit 1, World (files w) (stdout w ++ [SalesFileError f])).
Proof.
  revert docs. induction pre as [|g pre IH]; intros docs HF Hpre Hf.
  - apply Forall2_cons_inv_l in HF as (v & vs & Hv & _ & ->).
    simpl. rewrite Hv, Hf. reflexivity.
  - apply Forall2_cons_inv_l in HF as (v & vs & Hv & HF & ->).
    apply Forall_cons in Hpre as [Hg Hpre].
    simpl. rewrite Hv, Hg. by apply IH.
Qed.

(** X15. When sales files are bad, the diagnostic names the first of them in
    argument order; and since all sales files are loaded before any is
    checked, every sales file, also those after the bad one, has been
    announced on the console by then. *)
Theorem first_bad_sales_file_named
    argv execution_time w cat w1 pre f post :
  (3 ≤ length argv)%nat →
  generate_price_catalogue (nth 1 argv "") default_catalogue_file w
    = (Ok cat, w1) →
  py_truthy cat = true →
  drop 2 argv = pre ++ f :: post →
  Forall (λ g, usable (files w1 !! g) = true) pre →
  unusable (files w1 !! f) = true →
  Forall (λ g, usable (files w1 !! g) || unusable (files w1 !! g) = true) post →
  ∃ evs,
    main argv execution_time w
      = (Exit 1,
         World (files w1) (stdout w1 ++ evs ++ [SalesFileError f])) ∧
    ∀ g, g ∈ drop 2 argv → Loading g ∈ evs.
Proof.
  intros Hlen Hgen Hcat Hsplit Hpre Hf Hpost.
  rewrite main_run, Hgen, Hcat by done.
  destruct (load_all_run (drop 2 argv) w1) as (o & evs & Hrun & _ & Ho).
  destruct Ho as (docs & -> & HF).
  { rewrite Hsplit, forallb_app. simpl. rewrite Hf, orb_true_r. simpl.
    apply andb_true_iff. split; apply forallb_forall; intros g Hg%list_elem_of_In.
    - rewrite Forall_forall in Hpre. by rewrite (Hpre g Hg).
    - rewrite Forall_forall in Hpost. by apply Hpost. }
  destruct (load_all_announces _ _ _ _ Hrun) as (evs' & [= Heq] & Hin).
  apply app_inv_head in Heq as <-.
  rewrite Hrun. exists evs. split; [|done].
  rewrite Hsplit in HF |- *.
  assert (Hpre' : Forall (λ g, unusable (files w1 !! g) = false) pre).
  { eapply Forall_impl; [exact Hpre|]. intros g. apply usable_not_unusable. }
  rewrite (check_sales_first (files w1) pre f post docs _ HF Hpre' Hf).
  simpl. by rewrite <- app_assoc.
Qed.

Lemma first_bad_sales_file_named_witness :
  ∃ evs,
    main ["compute_sales.py"; "products.json"; "sales.json"; "missing.json";
          "sales.json"] 0%float cold_world
      = (Exit 1,
         World (files derived_world)
               (stdout derived_world ++ evs ++ [SalesFileError "missing.json"])) ∧
    ∀ g, g ∈ ["sales.json"; "missing.json"; "sales.json"] → Loading g ∈ evs.
Proof.
  apply (first_bad_sales_file_named
           ["compute_sales.py"; "products.json"; "sales.json"; "missing.json";
            "sales.json"] 0%float cold_world widget_catalogue derived_world
           ["sales.json"] "missing.json" ["sales.json"]).
  - simpl. lia.
  - vm_compute. reflexivity.
  - reflexivity.
  - reflexivity.
  - constructor; [vm_compute; reflexivity|constructor].
  - vm_compute. reflexivity.
  - constructor; [vm_compute; reflexivity|constructor].
Defined.

(** X16. On a warm run the product list argument is irrelevant: when a file
    exists at the cache path, two runs that differ only in the product list
    path given on the command line do exactly the same. *)
Theorem warm_run_ignores_product_list
    program product_list_file other_file sales_files execution_time w :
  is_Some (files w !! default_catalogue_file) →
  main (program :: product_list_file :: sales_files) execution_time w
    = main (program :: other_file :: sales_files) execution_time w.
Proof.
  intros Hc. unfold main. cbn [length nth drop].
  destruct (S (S (length sales_files)) <? 3)%nat; [reflexivity|].
  rewrite !bind_run. by rewrite !generate_warm.
Qed.

Lemma warm_run_ignores_product_list_witness :
  main ["compute_sales.py"; "products.json"; "sales.json"] 0%float warm_world
    = main ["compute_sales.py"; "missing.json"; "sales.json"] 0%float warm_world.
Proof.
  apply (warm_run_ignores_product_list "compute_sales.py" "products.json"
           "missing.json" ["sales.json"] 0%float warm_world).
  vm_compute. eexists. reflexivity.
Defined.
